(** * Qt Creator glue code: the language-client diagnostic manager and the
      clangd settings

    Two translation units are embedded here:
    - [LanguageClient]: diagnosticmanager.cpp, the adapter that stores the
      diagnostics a language server publishes for each file and turns them
      into editor selections and gutter marks;
    - [CppEditor]: clangdsettings.cpp, the settings of the clangd daemon,
      their key-value serialisation and the lookup of the clang headers.

    Both sit on top of Qt and of Qt Creator's utility libraries.  Whatever
    the two files only call (widgets, file paths, the settings variant, the
    file system, external processes) is gathered in a [Host] class whose
    operations are left abstract; a small concrete host is given for
    evaluating the functions on examples. *)

From Stdlib Require Import ZArith List.
From stdpp Require Import base option list gmap strings.

Local Open Scope Z_scope.

(* ===================================================================== *)
(** * diagnosticmanager.cpp *)
(* ===================================================================== *)

Module LanguageClient.

(** ** LanguageServerProtocol records, as far as the manager reads them *)

Inductive DiagnosticSeverity := Error | Warning | Information | Hint.

#[global] Instance DiagnosticSeverity_eq_dec : EqDecision DiagnosticSeverity.
Proof. solve_decision. Defined.

Record Position := { line : Z; character : Z }.

Record Range := { range_start : Position; range_end : Position }.

(** A diagnostic is read through [range()], [severity()] and [message()]
    only; the severity is optional in the protocol. *)
Record Diagnostic := {
  range : Range;
  severity : option DiagnosticSeverity;
  message : string
}.

(** ** Theme and editor enumerations named in the file *)

Inductive Color :=
| CodeModel_Error_TextMarkColor
| CodeModel_Warning_TextMarkColor
| IconsDisabledColor.

Inductive Icon := CODEMODEL_ERROR | CODEMODEL_WARNING.

Inductive TextStyle := C_ERROR | C_WARNING.

Inductive MoveMode := MoveAnchor | KeepAnchor.

(** [int] has 32 bits: a sum that leaves its range comes back into it
    from the other end. *)
Definition int_wrap (z : Z) : Z := (z + 2147483648) mod 4294967296 - 2147483648.

Definition int_add (a b : Z) : Z := int_wrap (a + b).

(** [std::optional<T>::value_or]. *)
Definition value_or {A} (o : option A) (dflt : A) : A :=
  match o with Some a => a | None => dflt end.

(** [QTextCursor]: a cursor on a document with an anchor and a position;
    a default-constructed cursor has no document and [isNull()] holds.
    The cursor keeps the positions it is given. *)
Record QTextCursorOn (Doc : Type) := {
  cursor_document : option Doc;
  cursor_anchor : Z;
  cursor_position : Z
}.
Arguments cursor_document {Doc} _.
Arguments cursor_anchor {Doc} _.
Arguments cursor_position {Doc} _.

(** ** The host: what the manager calls but does not define *)

Class Host := {
  FilePath : Type;
  FilePath_eq_dec :: EqDecision FilePath;
  FilePath_countable :: Countable FilePath;
  (** [Utils::Id] *)
  Id : Type;
  Id_eq_dec :: EqDecision Id;
  Id_countable :: Countable Id;
  (** [TextEditor::TextDocument *], [QTextDocument *], [BaseTextEditor *] *)
  TextDocument : Type;
  QTextDocument : Type;
  BaseTextEditor : Type;
  BaseTextEditor_eq_dec :: EqDecision BaseTextEditor;
  BaseTextEditor_countable :: Countable BaseTextEditor;
  QTextCharFormat : Type;
  (** [TextDocument::textDocumentForFilePath]: null when no document is
      open for the path. *)
  textDocumentForFilePath : FilePath -> option TextDocument;
  textEditorsForDocument : TextDocument -> list BaseTextEditor;
  document : TextDocument -> QTextDocument;
  (** the length of a document, [QTextDocument::characterCount()]: its
      cursor positions are 0 up to, not including, this number *)
  characterCount : QTextDocument -> Z;
  (** [Position::toPositionInDocument], [Range(cursor)], [Range::overlaps]
      of the protocol library *)
  toPositionInDocument : Position -> QTextDocument -> Z;
  Range_fromCursor : QTextCursorOn QTextDocument -> Range;
  overlaps : Range -> Range -> bool;
  (** [TextEditorSettings::fontSettings().toTextCharFormat] *)
  toTextCharFormat : TextStyle -> QTextCharFormat;
  (** [TextEditorWidget::CodeWarningsSelection] *)
  CodeWarningsSelection : Id
}.

Section Manager.
Context `{H : Host}.

Definition QTextCursor := QTextCursorOn QTextDocument.

(** [QTextCursor cursor(textDocument)] *)
Definition QTextCursor_on (textDocument : QTextDocument) : QTextCursor :=
  {| cursor_document := Some textDocument; cursor_anchor := 0; cursor_position := 0 |}.

(** [QTextCursor::setPosition(pos, mode)]: with [MoveAnchor] (the default)
    the anchor follows the position, with [KeepAnchor] it stays and the
    text in between is selected.  A null cursor ignores the call, and so
    does any cursor when [pos] is not a position of its document
    ([pos < 0] or [pos >= length]). *)
Definition setPosition (pos : Z) (mode : MoveMode) (c : QTextCursor) : QTextCursor :=
  match cursor_document c with
  | None => c
  | Some textDocument =>
      if (pos <? 0) || (characterCount textDocument <=? pos) then c
      else
        match mode with
        | MoveAnchor => {| cursor_document := cursor_document c;
                           cursor_anchor := pos; cursor_position := pos |}
        | KeepAnchor => {| cursor_document := cursor_document c;
                           cursor_anchor := cursor_anchor c; cursor_position := pos |}
        end
  end.

Definition isNull (c : QTextCursor) : bool :=
  match cursor_document c with None => true | Some _ => false end.

(** [QTextEdit::ExtraSelection] *)
Record ExtraSelection := {
  cursor : QTextCursor;
  format : QTextCharFormat
}.

(** The client the manager was created for. *)
Record Client := {
  name : string;
  id : Id;
  fileBelongsToProject : FilePath -> bool;
  documentVersion : FilePath -> Z
}.

(** The action a mark offers: an icon taken from the theme, a tool tip,
    and the text that triggering it copies to the clipboard. *)
Record QAction := {
  action_icon : string;
  action_toolTip : string;
  action_copies : string
}.

(** [TextEditor::TextMark] with the attributes the file sets. *)
Record TextMark := {
  mark_document : TextDocument;
  mark_lineNumber : Z;
  mark_category : string * Id;
  mark_lineAnnotation : string;
  mark_toolTip : string;
  mark_color : option Color;
  mark_icon : option Icon;
  mark_actions : list QAction
}.

(** The base-class constructor [TextEditor::TextMark(doc, line, category)]. *)
Definition TextEditor_TextMark (doc : TextDocument) (lineNumber : Z)
    (category : string * Id) : TextMark :=
  {| mark_document := doc; mark_lineNumber := lineNumber; mark_category := category;
     mark_lineAnnotation := ""; mark_toolTip := "";
     mark_color := None; mark_icon := None; mark_actions := [] |}.

Definition setLineAnnotation (s : string) (m : TextMark) : TextMark :=
  {| mark_document := mark_document m; mark_lineNumber := mark_lineNumber m;
     mark_category := mark_category m;
     mark_lineAnnotation := s; mark_toolTip := mark_toolTip m;
     mark_color := mark_color m; mark_icon := mark_icon m;
     mark_actions := mark_actions m |}.

Definition setToolTip (s : string) (m : TextMark) : TextMark :=
  {| mark_document := mark_document m; mark_lineNumber := mark_lineNumber m;
     mark_category := mark_category m;
     mark_lineAnnotation := mark_lineAnnotation m; mark_toolTip := s;
     mark_color := mark_color m; mark_icon := mark_icon m;
     mark_actions := mark_actions m |}.

Definition setColor (c : Color) (m : TextMark) : TextMark :=
  {| mark_document := mark_document m; mark_lineNumber := mark_lineNumber m;
     mark_category := mark_category m;
     mark_lineAnnotation := mark_lineAnnotation m; mark_toolTip := mark_toolTip m;
     mark_color := Some c; mark_icon := mark_icon m;
     mark_actions := mark_actions m |}.

Definition setIcon (i : Icon) (m : TextMark) : TextMark :=
  {| mark_document := mark_document m; mark_lineNumber := mark_lineNumber m;
     mark_category := mark_category m;
     mark_lineAnnotation := mark_lineAnnotation m; mark_toolTip := mark_toolTip m;
     mark_color := mark_color m; mark_icon := Some i;
     mark_actions := mark_actions m |}.

Definition setActionsProvider (acts : list QAction) (m : TextMark) : TextMark :=
  {| mark_document := mark_document m; mark_lineNumber := mark_lineNumber m;
     mark_category := mark_category m;
     mark_lineAnnotation := mark_lineAnnotation m; mark_toolTip := mark_toolTip m;
     mark_color := mark_color m; mark_icon := mark_icon m;
     mark_actions := acts |}.

(** [LanguageClient::TextMark::TextMark(doc, diag, client)] *)
Definition TextMark_ctor (doc : TextDocument) (diag : Diagnostic) (client : Client)
    : TextMark :=
  let base := TextEditor_TextMark doc (int_add (line (range_start (range diag))) 1)
                                  (name client, id client) in
  let m := setLineAnnotation (message diag) base in
  let m := setToolTip (message diag) m in
  let isError := bool_decide (value_or (severity diag) Hint = Error) in
  let m := setColor (if isError then CodeModel_Error_TextMarkColor
                     else CodeModel_Warning_TextMarkColor) m in
  setIcon (if isError then CODEMODEL_ERROR else CODEMODEL_WARNING) m.

Record VersionedDiagnostics := {
  version : option Z;
  diagnostics : list Diagnostic
}.

(** A default-constructed [VersionedDiagnostics], what [QMap::value]
    returns for a key that is not in the map. *)
Definition VersionedDiagnostics_default : VersionedDiagnostics :=
  {| version := None; diagnostics := [] |}.

Record Marks := {
  enabled : bool;
  marks : list TextMark
}.

(** A default-constructed [Marks], what [QMap::operator[]] inserts for a
    key that is not in the map. *)
Definition Marks_default : Marks := {| enabled := true; marks := [] |}.

Record DiagnosticManagerPrivate := {
  m_diagnostics : gmap FilePath VersionedDiagnostics;
  m_marks : gmap FilePath Marks;
  m_client : Client;
  m_extraSelectionsId : Id
}.

Inductive Signal := textMarkCreated (filePath : FilePath).

(** The manager together with what it drives: the extra selections of
    each editor widget, per selection kind, and the signals emitted so far
    (oldest first). *)
Record State := {
  d : DiagnosticManagerPrivate;
  extraSelections : gmap (BaseTextEditor * Id) (list ExtraSelection);
  emitted : list Signal
}.

Definition DiagnosticManager_ctor (client : Client) : State :=
  {| d := {| m_diagnostics := ∅; m_marks := ∅; m_client := client;
             m_extraSelectionsId := CodeWarningsSelection |};
     extraSelections := ∅; emitted := [] |}.

(** [editor->editorWidget()->setExtraSelections(kind, selections)] *)
Definition setExtraSelections (editor : BaseTextEditor) (kind : Id)
    (selections : list ExtraSelection)
    (w : gmap (BaseTextEditor * Id) (list ExtraSelection))
    : gmap (BaseTextEditor * Id) (list ExtraSelection) :=
  <[(editor, kind) := selections]> w.

(** The loop [for (editor : textEditorsForDocument(doc)) setExtraSelections]. *)
Definition setExtraSelectionsForDocument (doc : TextDocument) (kind : Id)
    (selections : list ExtraSelection)
    (w : gmap (BaseTextEditor * Id) (list ExtraSelection))
    : gmap (BaseTextEditor * Id) (list ExtraSelection) :=
  fold_left (fun w editor => setExtraSelections editor kind selections w)
            (textEditorsForDocument doc) w.

Definition filteredDiagnostics (diagnostics : list Diagnostic) : list Diagnostic :=
  diagnostics.

Definition hideDiagnostics (filePath : FilePath) (s : State) : State :=
  let w := match textDocumentForFilePath filePath with
           | Some doc =>
               setExtraSelectionsForDocument doc (m_extraSelectionsId (d s)) []
                                             (extraSelections s)
           | None => extraSelections s
           end in
  {| d := {| m_diagnostics := m_diagnostics (d s);
             m_marks := delete filePath (m_marks (d s));
             m_client := m_client (d s);
             m_extraSelectionsId := m_extraSelectionsId (d s) |};
     extraSelections := w;
     emitted := emitted s |}.

Definition setDiagnostics (filePath : FilePath) (diagnostics : list Diagnostic)
    (version : option Z) (s : State) : State :=
  let s := hideDiagnostics filePath s in
  {| d := {| m_diagnostics :=
               <[filePath := {| version := version;
                                diagnostics := filteredDiagnostics diagnostics |}]>
                 (m_diagnostics (d s));
             m_marks := m_marks (d s);
             m_client := m_client (d s);
             m_extraSelectionsId := m_extraSelectionsId (d s) |};
     extraSelections := extraSelections s;
     emitted := emitted s |}.

(** The copy-to-clipboard action of a mark; [Tr::tr] is taken as the
    source text. *)
Definition copyAction (text : string) : QAction :=
  {| action_icon := "edit-copy"; action_toolTip := "Copy to Clipboard";
     action_copies := text |}.

(** [createTextMark] returns a pointer; the caller tests it for null. *)
Definition createTextMark (dp : DiagnosticManagerPrivate) (doc : TextDocument)
    (diagnostic : Diagnostic) (isProjectFile : bool) : option TextMark :=
  let mark := TextMark_ctor doc diagnostic (m_client dp) in
  let mark := setActionsProvider [copyAction (message diagnostic)] mark in
  Some mark.

Definition createDiagnosticSelection (diagnostic : Diagnostic)
    (textDocument : QTextDocument) : ExtraSelection :=
  let cursor := QTextCursor_on textDocument in
  let cursor := setPosition
                  (toPositionInDocument (range_start (range diagnostic)) textDocument)
                  MoveAnchor cursor in
  let cursor := setPosition
                  (toPositionInDocument (range_end (range diagnostic)) textDocument)
                  KeepAnchor cursor in
  let severity := value_or (severity diagnostic) Warning in
  let style := if bool_decide (severity = Error) then C_ERROR else C_WARNING in
  {| cursor := cursor; format := toTextCharFormat style |}.

(** One turn of the loop over the diagnostics in [showDiagnostics]: the
    selections gathered so far and the marks of the file. *)
Definition showDiagnostics_body (dp : DiagnosticManagerPrivate) (doc : TextDocument)
    (isProjectFile : bool) (acc : list ExtraSelection * list TextMark)
    (diagnostic : Diagnostic) : list ExtraSelection * list TextMark :=
  let selection := createDiagnosticSelection diagnostic (document doc) in
  let extraSelections :=
    if negb (isNull (cursor selection)) then fst acc ++ [selection] else fst acc in
  let marks :=
    match createTextMark dp doc diagnostic isProjectFile with
    | Some mark => snd acc ++ [mark]
    | None => snd acc
    end in
  (extraSelections, marks).

Definition isEmpty {A} (l : list A) : bool :=
  match l with [] => true | _ => false end.

Definition showDiagnostics (filePath : FilePath) (ver : Z) (s : State) : State :=
  match textDocumentForFilePath filePath with
  | Some doc =>
      let versionedDiagnostics :=
        default VersionedDiagnostics_default (m_diagnostics (d s) !! filePath) in
      let '(selections, m_marks', emitted') :=
        if bool_decide (value_or (version versionedDiagnostics) ver = ver)
           && negb (isEmpty (diagnostics versionedDiagnostics))
        then
          let fileMarks := default Marks_default (m_marks (d s) !! filePath) in
          let isProjectFile := fileBelongsToProject (m_client (d s)) filePath in
          let '(selections, marks_marks) :=
            fold_left (showDiagnostics_body (d s) doc isProjectFile)
                      (diagnostics versionedDiagnostics) ([], marks fileMarks) in
          (selections,
           <[filePath := {| enabled := enabled fileMarks; marks := marks_marks |}]>
             (m_marks (d s)),
           if negb (isEmpty marks_marks)
           then emitted s ++ [textMarkCreated filePath] else emitted s)
        else ([], m_marks (d s), emitted s) in
      {| d := {| m_diagnostics := m_diagnostics (d s);
                 m_marks := m_marks';
                 m_client := m_client (d s);
                 m_extraSelectionsId := m_extraSelectionsId (d s) |};
         extraSelections :=
           setExtraSelectionsForDocument doc (m_extraSelectionsId (d s)) selections
                                         (extraSelections s);
         emitted := emitted' |}
  | None => s
  end.

(** [Utils::filtered] keeps, in order, the elements the predicate holds of. *)
Definition filtered {A} (l : list A) (p : A -> bool) : list A := List.filter p l.

Definition diagnosticsAt (filePath : FilePath) (cursor : QTextCursor) (s : State)
    : list Diagnostic :=
  let documentRevision := documentVersion (m_client (d s)) filePath in
  match m_diagnostics (d s) !! filePath with
  | None => []
  | Some it =>
      if negb (bool_decide (documentRevision = value_or (version it) documentRevision))
      then []
      else
        let range' := Range_fromCursor cursor in
        filtered (diagnostics it) (fun diagnostic => overlaps (range diagnostic) range')
  end.

(** ** The rest of the manager *)

(** [QList::contains] compares diagnostics with [operator==]. *)
#[global] Instance Position_eq_dec : EqDecision Position.
Proof. solve_decision. Defined.

#[global] Instance Range_eq_dec : EqDecision Range.
Proof. solve_decision. Defined.

#[global] Instance Diagnostic_eq_dec : EqDecision Diagnostic.
Proof. solve_decision. Defined.

(** [setExtraSelectionsId]; the [QTC_CHECK] only reports, its outcome is
    returned beside the state. *)
Definition setExtraSelectionsId (extraSelectionsId : Id) (s : State) : State * bool :=
  let check := bool_decide (size (m_diagnostics (d s)) = 0%nat) in
  ({| d := {| m_diagnostics := m_diagnostics (d s);
              m_marks := m_marks (d s);
              m_client := m_client (d s);
              m_extraSelectionsId := extraSelectionsId |};
      extraSelections := extraSelections s;
      emitted := emitted s |}, check).

(** The loop [for (path : keys) hideDiagnostics(path)]. *)
Definition hideAll (paths : list FilePath) (s : State) : State :=
  fold_left (fun s path => hideDiagnostics path s) paths s.

(** [clearDiagnostics].  [QTC_ASSERT(cond, action)] runs [action] when
    [cond] fails; whether it held is returned beside the state.
    [QMap::keys()] lists the keys in their order; the order in which the
    files are hidden does not show in the result. *)
Definition clearDiagnostics (s : State) : State * bool :=
  let s1 := hideAll (map fst (map_to_list (m_diagnostics (d s)))) s in
  let assertion := bool_decide (size (m_marks (d s1)) = 0%nat) in
  ({| d := {| m_diagnostics := ∅;
              m_marks := if assertion then m_marks (d s1) else ∅;
              m_client := m_client (d s1);
              m_extraSelectionsId := m_extraSelectionsId (d s1) |};
      extraSelections := extraSelections s1;
      emitted := emitted s1 |}, assertion).

(** [hasDiagnostic]; [doc] may be null. *)
Definition hasDiagnostic (filePath : FilePath) (doc : option TextDocument)
    (diag : Diagnostic) (s : State) : bool :=
  match doc with
  | None => false
  | Some _ =>
      match m_diagnostics (d s) !! filePath with
      | None => false
      | Some it =>
          let revision := documentVersion (m_client (d s)) filePath in
          if negb (bool_decide (revision = value_or (version it) revision)) then false
          else bool_decide (diag ∈ diagnostics it)
      end
  end.

Section Documents.
(** [TextDocument::filePath()] *)
Variable TextDocument_filePath : TextDocument -> FilePath.

Definition disableDiagnostics (document : TextDocument) (s : State) : State :=
  let filePath := TextDocument_filePath document in
  let fileMarks := default Marks_default (m_marks (d s) !! filePath) in
  let fileMarks' :=
    if negb (enabled fileMarks) then fileMarks
    else {| enabled := false;
            marks := map (setColor IconsDisabledColor) (marks fileMarks) |} in
  {| d := {| m_diagnostics := m_diagnostics (d s);
             m_marks := <[filePath := fileMarks']> (m_marks (d s));
             m_client := m_client (d s);
             m_extraSelectionsId := m_extraSelectionsId (d s) |};
     extraSelections := extraSelections s;
     emitted := emitted s |}.

Definition hasDiagnostics (doc : TextDocument) (s : State) : bool :=
  let docPath := TextDocument_filePath doc in
  match m_diagnostics (d s) !! docPath with
  | None => false
  | Some it =>
      let revision := documentVersion (m_client (d s)) docPath in
      if negb (bool_decide (revision = value_or (version it) revision)) then false
      else negb (isEmpty (diagnostics it))
  end.

End Documents.

(** The states the manager gets into when it is driven through
    [setDiagnostics], [hideDiagnostics], [showDiagnostics] and
    [clearDiagnostics]. *)
Inductive reachable (client : Client) : State -> Prop :=
| reachable_ctor : reachable client (DiagnosticManager_ctor client)
| reachable_setDiagnostics filePath diags ver s :
    reachable client s -> reachable client (setDiagnostics filePath diags ver s)
| reachable_hideDiagnostics filePath s :
    reachable client s -> reachable client (hideDiagnostics filePath s)
| reachable_showDiagnostics filePath ver s :
    reachable client s -> reachable client (showDiagnostics filePath ver s)
| reachable_clearDiagnostics s :
    reachable client s -> reachable client (fst (clearDiagnostics s)).

End Manager.

End LanguageClient.

(* ===================================================================== *)
(** * clangdsettings.cpp *)
(* ===================================================================== *)

Module CppEditor.

(** ** Qt values *)

(** [QVariant], with the value types the settings store of this file
    carries. *)
Inductive QVariant :=
| VInvalid
| VBool (b : bool)
| VInt (n : Z)
| VLongLong (n : Z)
| VString (s : string)
| VStringList (l : list string).

(** [Utils::Key] and [Utils::Store] ([QMap<Key, QVariant>]). *)
Abbreviation Key := string (only parsing).
Abbreviation Store := (gmap string QVariant) (only parsing).

(** The enumerations of [ClangdSettings] are [enum class]es over [int]:
    a value is its underlying integer, and the casts [int(e)] and [E(n)]
    keep it. *)
Record IndexingPriority := IndexingPriority_cast { IndexingPriority_int : Z }.
Record HeaderSourceSwitchMode :=
  HeaderSourceSwitchMode_cast { HeaderSourceSwitchMode_int : Z }.
Record CompletionRankingModel :=
  CompletionRankingModel_cast { CompletionRankingModel_int : Z }.

#[global] Instance IndexingPriority_eq_dec : EqDecision IndexingPriority.
Proof. solve_decision. Defined.

(** ** The host: what the file calls but does not define *)

Class Host := {
  (** [Utils::FilePath] and the file system behind it *)
  FilePath : Type;
  FilePath_eq_dec :: EqDecision FilePath;
  (** the default-constructed path, [FilePath()] or [return {}] *)
  FilePath_null : FilePath;
  FilePath_isEmpty : FilePath -> bool;
  FilePath_exists : FilePath -> bool;
  FilePath_fromString : string -> FilePath;
  FilePath_fromUserInput : string -> FilePath;
  FilePath_toString : FilePath -> string;
  absolutePath : FilePath -> FilePath;
  pathAppended : FilePath -> string -> FilePath;
  withExecutableSuffix : FilePath -> FilePath;
  (** [Environment::systemEnvironment().searchInPath] *)
  searchInPath : string -> FilePath;
  (** [Utils::Process]: whether the command, once started, finishes in
      time, and what it prints *)
  waitForFinished : FilePath * list string -> bool;
  rawStdOut : FilePath * list string -> string;
  trimmed : string -> string;
  fromLocal8Bit : string -> string;
  (** [QDir::toNativeSeparators] *)
  toNativeSeparators : string -> string;
  (** [qtcEnvironmentVariableIntValue(name, &ok)]: the value and [ok] *)
  qtcEnvironmentVariableIntValue : string -> Z * bool;
  (** [Utils::Id] *)
  Id : Type;
  Id_toSetting : Id -> QVariant;
  Id_fromSetting : QVariant -> Id;
  (** declared in headers of the plugin: the build-system diagnostic
      configuration, the configuration records, the enumerator
      [IndexingPriority::Off] *)
  CPP_CLANG_DIAG_CONFIG_BUILDSYSTEM : Id;
  ClangDiagnosticConfig : Type;
  Off : IndexingPriority;
  (** [QVariant]'s conversions between different value types, other than
      the widening of an [int] *)
  convertToBool : QVariant -> bool;
  convertToInt : QVariant -> Z;
  convertToLongLong : QVariant -> Z;
  convertToString : QVariant -> string;
  convertToStringList : QVariant -> list string
}.

Section Settings.
Context `{H : Host}.

(** [QVariant::toBool] and its siblings: a variant that holds a value of
    the requested type returns it. *)
Definition toBool (v : QVariant) : bool :=
  match v with VBool b => b | _ => convertToBool v end.

Definition toInt (v : QVariant) : Z :=
  match v with VInt n => n | _ => convertToInt v end.

Definition toLongLong (v : QVariant) : Z :=
  match v with VLongLong n => n | VInt n => n | _ => convertToLongLong v end.

Definition toString (v : QVariant) : string :=
  match v with VString s => s | _ => convertToString v end.

Definition toStringList (v : QVariant) : list string :=
  match v with VStringList l => l | _ => convertToStringList v end.

(** [QMap::value(key, defaultValue)] and [QMap::value(key)]. *)
Definition value (map : Store) (key : Key) (defaultValue : QVariant) : QVariant :=
  default defaultValue (map !! key).

Definition value1 (map : Store) (key : Key) : QVariant := value map key VInvalid.

Definition ClangDiagnosticConfigs := list ClangDiagnosticConfig.

(** [ClangdSettings::Data]: the members the file reads and writes.  The
    [int] and [qint64] members are integers; the file does no arithmetic
    on them. *)
Record Data := {
  executableFilePath : FilePath;
  sessionsWithOneClangd : list string;
  customDiagnosticConfigs : ClangDiagnosticConfigs;
  diagnosticConfigId : Id;
  workerThreadLimit : Z;
  documentUpdateThreshold : Z;
  sizeThresholdInKb : Z;
  useClangd : bool;
  indexingPriority : IndexingPriority;
  projectIndexPathTemplate : string;
  sessionIndexPathTemplate : string;
  headerSourceSwitchMode : HeaderSourceSwitchMode;
  completionRankingModel : CompletionRankingModel;
  autoIncludeHeaders : bool;
  sizeThresholdEnabled : bool;
  haveCheckedHardwareReqirements : bool;
  completionResults : Z
}.

(** The file-static [g_defaultClangdFilePath] is passed to the functions
    that read it. *)
Definition fallbackClangdFilePath (g_defaultClangdFilePath : FilePath) : FilePath :=
  if FilePath_exists g_defaultClangdFilePath then g_defaultClangdFilePath
  else searchInPath "clangd".

Definition initialClangDiagnosticConfigId : Id := CPP_CLANG_DIAG_CONFIG_BUILDSYSTEM.

Definition useClangdKey : Key := "UseClangdV7".
Definition clangdPathKey : Key := "ClangdPath".
Definition clangdIndexingKey : Key := "ClangdIndexing".
Definition clangdProjectIndexPathKey : Key := "ClangdProjectIndexPath".
Definition clangdSessionIndexPathKey : Key := "ClangdSessionIndexPath".
Definition clangdIndexingPriorityKey : Key := "ClangdIndexingPriority".
Definition clangdHeaderSourceSwitchModeKey : Key := "ClangdHeaderSourceSwitchMode".
Definition clangdCompletionRankingModelKey : Key := "ClangdCompletionRankingModel".
Definition clangdHeaderInsertionKey : Key := "ClangdHeaderInsertion".
Definition clangdThreadLimitKey : Key := "ClangdThreadLimit".
Definition clangdDocumentThresholdKey : Key := "ClangdDocumentThreshold".
Definition clangdSizeThresholdEnabledKey : Key := "ClangdSizeThresholdEnabled".
Definition clangdSizeThresholdKey : Key := "ClangdSizeThreshold".
Definition sessionsWithOneClangdKey : Key := "SessionsWithOneClangd".
Definition diagnosticConfigIdKey : Key := "diagnosticConfigId".
Definition checkedHardwareKey : Key := "checkedHardware".
Definition completionResultsKey : Key := "completionResults".

Definition defaultProjectIndexPathTemplate : string :=
  toNativeSeparators "%{BuildConfig:BuildDirectory:FilePath}/.qtc_clangd".

Definition defaultSessionIndexPathTemplate : string :=
  toNativeSeparators "%{IDE:UserResourcePath}/.qtc_clangd/%{Session:FileBaseName}".

Definition defaultCompletionResults : Z :=
  let '(userValue, ok) := qtcEnvironmentVariableIntValue "QTC_CLANGD_COMPLETION_RESULTS" in
  if ok then userValue else 100.

Definition toMap (g_defaultClangdFilePath : FilePath) (data : Data) : Store :=
  let map : Store := ∅ in
  let map := <[useClangdKey := VBool (useClangd data)]> map in
  let map := <[clangdPathKey :=
                 VString (if bool_decide (executableFilePath data
                                          ≠ fallbackClangdFilePath g_defaultClangdFilePath)
                          then FilePath_toString (executableFilePath data)
                          else "")]> map in
  let map := <[clangdIndexingKey :=
                 VBool (bool_decide (indexingPriority data ≠ Off))]> map in
  let map := <[clangdIndexingPriorityKey :=
                 VInt (IndexingPriority_int (indexingPriority data))]> map in
  let map := <[clangdProjectIndexPathKey := VString (projectIndexPathTemplate data)]> map in
  let map := <[clangdSessionIndexPathKey := VString (sessionIndexPathTemplate data)]> map in
  let map := <[clangdHeaderSourceSwitchModeKey :=
                 VInt (HeaderSourceSwitchMode_int (headerSourceSwitchMode data))]> map in
  let map := <[clangdCompletionRankingModelKey :=
                 VInt (CompletionRankingModel_int (completionRankingModel data))]> map in
  let map := <[clangdHeaderInsertionKey := VBool (autoIncludeHeaders data)]> map in
  let map := <[clangdThreadLimitKey := VInt (workerThreadLimit data)]> map in
  let map := <[clangdDocumentThresholdKey := VInt (documentUpdateThreshold data)]> map in
  let map := <[clangdSizeThresholdEnabledKey := VBool (sizeThresholdEnabled data)]> map in
  let map := <[clangdSizeThresholdKey := VLongLong (sizeThresholdInKb data)]> map in
  let map := <[sessionsWithOneClangdKey := VStringList (sessionsWithOneClangd data)]> map in
  let map := <[diagnosticConfigIdKey := Id_toSetting (diagnosticConfigId data)]> map in
  let map := <[checkedHardwareKey := VBool (haveCheckedHardwareReqirements data)]> map in
  let map := <[completionResultsKey := VInt (completionResults data)]> map in
  map.

(** [fromMap] is a member function: it overwrites the members of the
    object it is called on ([this]) and returns nothing; here it returns
    the object afterwards. *)
Definition fromMap (this : Data) (map : Store) : Data :=
  let useClangd' := toBool (value map useClangdKey (VBool true)) in
  let executableFilePath' := FilePath_fromString (toString (value1 map clangdPathKey)) in
  let indexingPriority' :=
    IndexingPriority_cast
      (toInt (value map clangdIndexingPriorityKey
                    (VInt (IndexingPriority_int (indexingPriority this))))) in
  let indexingPriority' :=
    match map !! clangdIndexingKey with
    | Some it => if negb (toBool it) then Off else indexingPriority'
    | None => indexingPriority'
    end in
  let projectIndexPathTemplate' :=
    toString (value map clangdProjectIndexPathKey
                    (VString defaultProjectIndexPathTemplate)) in
  let sessionIndexPathTemplate' :=
    toString (value map clangdSessionIndexPathKey
                    (VString defaultSessionIndexPathTemplate)) in
  let headerSourceSwitchMode' :=
    HeaderSourceSwitchMode_cast
      (toInt (value map clangdHeaderSourceSwitchModeKey
                    (VInt (HeaderSourceSwitchMode_int (headerSourceSwitchMode this))))) in
  let completionRankingModel' :=
    CompletionRankingModel_cast
      (toInt (value map clangdCompletionRankingModelKey
                    (VInt (CompletionRankingModel_int (completionRankingModel this))))) in
  let autoIncludeHeaders' := toBool (value map clangdHeaderInsertionKey (VBool false)) in
  let workerThreadLimit' := toInt (value map clangdThreadLimitKey (VInt 0)) in
  let documentUpdateThreshold' :=
    toInt (value map clangdDocumentThresholdKey (VInt 500)) in
  let sizeThresholdEnabled' :=
    toBool (value map clangdSizeThresholdEnabledKey (VBool false)) in
  let sizeThresholdInKb' := toLongLong (value map clangdSizeThresholdKey (VInt 1024)) in
  let sessionsWithOneClangd' := toStringList (value1 map sessionsWithOneClangdKey) in
  let diagnosticConfigId' :=
    Id_fromSetting (value map diagnosticConfigIdKey
                          (Id_toSetting initialClangDiagnosticConfigId)) in
  let haveCheckedHardwareReqirements' :=
    toBool (value map checkedHardwareKey (VBool false)) in
  let completionResults' :=
    toInt (value map completionResultsKey (VInt defaultCompletionResults)) in
  {| executableFilePath := executableFilePath';
     sessionsWithOneClangd := sessionsWithOneClangd';
     customDiagnosticConfigs := customDiagnosticConfigs this;
     diagnosticConfigId := diagnosticConfigId';
     workerThreadLimit := workerThreadLimit';
     documentUpdateThreshold := documentUpdateThreshold';
     sizeThresholdInKb := sizeThresholdInKb';
     useClangd := useClangd';
     indexingPriority := indexingPriority';
     projectIndexPathTemplate := projectIndexPathTemplate';
     sessionIndexPathTemplate := sessionIndexPathTemplate';
     headerSourceSwitchMode := headerSourceSwitchMode';
     completionRankingModel := completionRankingModel';
     autoIncludeHeaders := autoIncludeHeaders';
     sizeThresholdEnabled := sizeThresholdEnabled';
     haveCheckedHardwareReqirements := haveCheckedHardwareReqirements';
     completionResults := completionResults' |}.

Definition getClangHeadersPathFromClang (clangdFilePath : FilePath) : FilePath :=
  let clangFilePath :=
    withExecutableSuffix (pathAppended (absolutePath clangdFilePath) "clang") in
  if negb (FilePath_exists clangFilePath) then FilePath_null
  else
    let clang := (clangFilePath, ["-print-resource-dir"]) in
    if negb (waitForFinished clang) then FilePath_null
    else
      let resourceDir :=
        FilePath_fromUserInput (fromLocal8Bit (trimmed (rawStdOut clang))) in
      if FilePath_isEmpty resourceDir || negb (FilePath_exists resourceDir)
      then FilePath_null
      else
        let includeDir := pathAppended resourceDir "include" in
        if negb (FilePath_exists includeDir) then FilePath_null
        else includeDir.

(** [ClangdProjectSettings]: the members [settings()] reads. *)
Record ClangdProjectSettings := {
  m_customSettings : Data;
  m_useGlobalSettings : bool;
  m_blockIndexing : bool
}.

Definition Data_set_sessionsWithOneClangd (l : list string) (data : Data) : Data :=
  {| executableFilePath := executableFilePath data;
     sessionsWithOneClangd := l;
     customDiagnosticConfigs := customDiagnosticConfigs data;
     diagnosticConfigId := diagnosticConfigId data;
     workerThreadLimit := workerThreadLimit data;
     documentUpdateThreshold := documentUpdateThreshold data;
     sizeThresholdInKb := sizeThresholdInKb data;
     useClangd := useClangd data;
     indexingPriority := indexingPriority data;
     projectIndexPathTemplate := projectIndexPathTemplate data;
     sessionIndexPathTemplate := sessionIndexPathTemplate data;
     headerSourceSwitchMode := headerSourceSwitchMode data;
     completionRankingModel := completionRankingModel data;
     autoIncludeHeaders := autoIncludeHeaders data;
     sizeThresholdEnabled := sizeThresholdEnabled data;
     haveCheckedHardwareReqirements := haveCheckedHardwareReqirements data;
     completionResults := completionResults data |}.

Definition Data_set_customDiagnosticConfigs (l : ClangDiagnosticConfigs) (data : Data)
    : Data :=
  {| executableFilePath := executableFilePath data;
     sessionsWithOneClangd := sessionsWithOneClangd data;
     customDiagnosticConfigs := l;
     diagnosticConfigId := diagnosticConfigId data;
     workerThreadLimit := workerThreadLimit data;
     documentUpdateThreshold := documentUpdateThreshold data;
     sizeThresholdInKb := sizeThresholdInKb data;
     useClangd := useClangd data;
     indexingPriority := indexingPriority data;
     projectIndexPathTemplate := projectIndexPathTemplate data;
     sessionIndexPathTemplate := sessionIndexPathTemplate data;
     headerSourceSwitchMode := headerSourceSwitchMode data;
     completionRankingModel := completionRankingModel data;
     autoIncludeHeaders := autoIncludeHeaders data;
     sizeThresholdEnabled := sizeThresholdEnabled data;
     haveCheckedHardwareReqirements := haveCheckedHardwareReqirements data;
     completionResults := completionResults data |}.

Definition Data_set_indexingPriority (p : IndexingPriority) (data : Data) : Data :=
  {| executableFilePath := executableFilePath data;
     sessionsWithOneClangd := sessionsWithOneClangd data;
     customDiagnosticConfigs := customDiagnosticConfigs data;
     diagnosticConfigId := diagnosticConfigId data;
     workerThreadLimit := workerThreadLimit data;
     documentUpdateThreshold := documentUpdateThreshold data;
     sizeThresholdInKb := sizeThresholdInKb data;
     useClangd := useClangd data;
     indexingPriority := p;
     projectIndexPathTemplate := projectIndexPathTemplate data;
     sessionIndexPathTemplate := sessionIndexPathTemplate data;
     headerSourceSwitchMode := headerSourceSwitchMode data;
     completionRankingModel := completionRankingModel data;
     autoIncludeHeaders := autoIncludeHeaders data;
     sizeThresholdEnabled := sizeThresholdEnabled data;
     haveCheckedHardwareReqirements := haveCheckedHardwareReqirements data;
     completionResults := completionResults data |}.

(** [ClangdSettings::setClangdFilePath], on the data of the instance. *)
Definition setClangdFilePath (filePath : FilePath) (data : Data) : Data :=
  {| executableFilePath := filePath;
     sessionsWithOneClangd := sessionsWithOneClangd data;
     customDiagnosticConfigs := customDiagnosticConfigs data;
     diagnosticConfigId := diagnosticConfigId data;
     workerThreadLimit := workerThreadLimit data;
     documentUpdateThreshold := documentUpdateThreshold data;
     sizeThresholdInKb := sizeThresholdInKb data;
     useClangd := useClangd data;
     indexingPriority := indexingPriority data;
     projectIndexPathTemplate := projectIndexPathTemplate data;
     sessionIndexPathTemplate := sessionIndexPathTemplate data;
     headerSourceSwitchMode := headerSourceSwitchMode data;
     completionRankingModel := completionRankingModel data;
     autoIncludeHeaders := autoIncludeHeaders data;
     sizeThresholdEnabled := sizeThresholdEnabled data;
     haveCheckedHardwareReqirements := haveCheckedHardwareReqirements data;
     completionResults := completionResults data |}.

(** [ClangdProjectSettings::settings()]; [instanceData] is
    [ClangdSettings::instance().data()], the settings of the global
    instance. *)
Definition settings (instanceData : Data) (this : ClangdProjectSettings) : Data :=
  let globalData := instanceData in
  let data := globalData in
  let data :=
    if negb (m_useGlobalSettings this) then
      let data := m_customSettings this in
      let data := Data_set_sessionsWithOneClangd (sessionsWithOneClangd instanceData) data in
      Data_set_customDiagnosticConfigs (customDiagnosticConfigs instanceData) data
    else data in
  if m_blockIndexing this then Data_set_indexingPriority Off data else data.

(** ** The rest of the settings *)

(** [ClangdSettings::clangdFilePath()], on the data of the instance. *)
Definition clangdFilePath (g_defaultClangdFilePath : FilePath) (m_data : Data) : FilePath :=
  if negb (FilePath_isEmpty (executableFilePath m_data)) then executableFilePath m_data
  else fallbackClangdFilePath g_defaultClangdFilePath.

(** *** Sessions with one clangd *)

Inductive Granularity := Project | Session.

(** [granularity()]; the active session is the session manager's. *)
Definition granularity (activeSession : string) (m_data : Data) : Granularity :=
  if bool_decide (activeSession ∈ sessionsWithOneClangd m_data) then Session else Project.

(** [QList::removeOne]: the first occurrence goes. *)
Fixpoint removeOne (name : string) (l : list string) : list string :=
  match l with
  | [] => []
  | x :: l' => if decide (x = name) then l' else x :: removeOne name l'
  end.

(** [QList::indexOf]: the index of the first occurrence, or -1. *)
Fixpoint indexOf (name : string) (l : list string) : Z :=
  match l with
  | [] => -1
  | x :: l' =>
      if decide (x = name) then 0
      else let index := indexOf name l' in
           if bool_decide (index = -1) then -1 else index + 1
  end.

(** The handlers the constructor of [ClangdSettings] connects to the
    session manager's [sessionRemoved] and [sessionRenamed]. *)
Definition sessionRemoved (name : string) (m_data : Data) : Data :=
  Data_set_sessionsWithOneClangd (removeOne name (sessionsWithOneClangd m_data)) m_data.

Definition sessionRenamed (oldName newName : string) (m_data : Data) : Data :=
  let index := indexOf oldName (sessionsWithOneClangd m_data) in
  if negb (bool_decide (index = -1))
  then Data_set_sessionsWithOneClangd
         (<[Z.to_nat index := newName]> (sessionsWithOneClangd m_data)) m_data
  else m_data.

(** *** The settings of a project *)

Definition useGlobalSettingsKey : Key := "useGlobalSettings".
Definition clangdblockIndexingSettingsKey : Key := "blockIndexing".

Section ProjectSettings.
Context {ClangDiagnosticConfig_eq_dec : EqDecision ClangDiagnosticConfig}.

(** A [ClangdProjectSettings] object together with what its member
    functions reach: its project (null, or a project with the store it
    keeps under the name "ClangdSettings", empty when nothing was stored),
    the data of the global [ClangdSettings] instance, the number of times
    that instance saved itself and the number of times its [changed]
    signal was emitted. *)
Record ProjectSettingsState := {
  this_settings : ClangdProjectSettings;
  m_project : option (gmap string QVariant);
  instance_data : Data;
  instance_saves : nat;
  changed_emitted : nat
}.

Definition with_settings (this : ClangdProjectSettings) (st : ProjectSettingsState)
    : ProjectSettingsState :=
  {| this_settings := this; m_project := m_project st;
     instance_data := instance_data st; instance_saves := instance_saves st;
     changed_emitted := changed_emitted st |}.

(** [emit ClangdSettings::instance().changed()] *)
Definition emit_changed (st : ProjectSettingsState) : ProjectSettingsState :=
  {| this_settings := this_settings st; m_project := m_project st;
     instance_data := instance_data st; instance_saves := instance_saves st;
     changed_emitted := S (changed_emitted st) |}.

Definition ClangdProjectSettings_loadSettings (st : ProjectSettingsState)
    : ProjectSettingsState :=
  match m_project st with
  | None => st
  | Some data =>
      let useGlobalSettings := toBool (value data useGlobalSettingsKey (VBool true)) in
      let blockIndexing := toBool (value data clangdblockIndexingSettingsKey (VBool false)) in
      let customSettings :=
        if negb useGlobalSettings
        then fromMap (m_customSettings (this_settings st)) data
        else m_customSettings (this_settings st) in
      with_settings {| m_customSettings := customSettings;
                       m_useGlobalSettings := useGlobalSettings;
                       m_blockIndexing := blockIndexing |} st
  end.

Definition ClangdProjectSettings_saveSettings (g_defaultClangdFilePath : FilePath)
    (st : ProjectSettingsState) : ProjectSettingsState :=
  match m_project st with
  | None => st
  | Some _ =>
      let data : Store := ∅ in
      let data :=
        if negb (m_useGlobalSettings (this_settings st))
        then toMap g_defaultClangdFilePath (m_customSettings (this_settings st))
        else data in
      let data := <[useGlobalSettingsKey := VBool (m_useGlobalSettings (this_settings st))]>
                    data in
      let data := <[clangdblockIndexingSettingsKey :=
                      VBool (m_blockIndexing (this_settings st))]> data in
      {| this_settings := this_settings st; m_project := Some data;
         instance_data := instance_data st; instance_saves := instance_saves st;
         changed_emitted := changed_emitted st |}
  end.

(** [ClangdSettings::setCustomDiagnosticConfigs] *)
Definition setCustomDiagnosticConfigs (configs : ClangDiagnosticConfigs)
    (st : ProjectSettingsState) : ProjectSettingsState :=
  if bool_decide (customDiagnosticConfigs (instance_data st) = configs) then st
  else {| this_settings := this_settings st; m_project := m_project st;
          instance_data := Data_set_customDiagnosticConfigs configs (instance_data st);
          instance_saves := S (instance_saves st);
          changed_emitted := changed_emitted st |}.

Definition setSettings (g_defaultClangdFilePath : FilePath) (data : Data)
    (st : ProjectSettingsState) : ProjectSettingsState :=
  let st := with_settings {| m_customSettings := data;
                             m_useGlobalSettings := m_useGlobalSettings (this_settings st);
                             m_blockIndexing := m_blockIndexing (this_settings st) |} st in
  let st := ClangdProjectSettings_saveSettings g_defaultClangdFilePath st in
  let st := setCustomDiagnosticConfigs (customDiagnosticConfigs data) st in
  emit_changed st.

Definition setUseGlobalSettings (g_defaultClangdFilePath : FilePath) (useGlobal : bool)
    (st : ProjectSettingsState) : ProjectSettingsState :=
  let st := with_settings {| m_customSettings := m_customSettings (this_settings st);
                             m_useGlobalSettings := useGlobal;
                             m_blockIndexing := m_blockIndexing (this_settings st) |} st in
  let st := ClangdProjectSettings_saveSettings g_defaultClangdFilePath st in
  emit_changed st.

Definition blockIndexing (g_defaultClangdFilePath : FilePath)
    (st : ProjectSettingsState) : ProjectSettingsState :=
  if m_blockIndexing (this_settings st) then st
  else
    let st := with_settings {| m_customSettings := m_customSettings (this_settings st);
                               m_useGlobalSettings := m_useGlobalSettings (this_settings st);
                               m_blockIndexing := true |} st in
    let st := ClangdProjectSettings_saveSettings g_defaultClangdFilePath st in
    emit_changed st.

Definition unblockIndexing (g_defaultClangdFilePath : FilePath)
    (st : ProjectSettingsState) : ProjectSettingsState :=
  if negb (m_blockIndexing (this_settings st)) then st
  else
    let st := with_settings {| m_customSettings := m_customSettings (this_settings st);
                               m_useGlobalSettings := m_useGlobalSettings (this_settings st);
                               m_blockIndexing := false |} st in
    ClangdProjectSettings_saveSettings g_defaultClangdFilePath st.

End ProjectSettings.

(** *** The clang headers, second attempt *)

(** What [getClangHeadersPath] needs beyond the host above:
    [Utils::clangdVersion], [QVersionNumber], [QString::number] and
    [FilePath::parentDir]. *)
Class Versions := {
  QVersionNumber : Type;
  clangdVersion : FilePath -> QVersionNumber;
  QVersionNumber_isNull : QVersionNumber -> bool;
  majorVersion : QVersionNumber -> Z;
  QVersionNumber_toString : QVersionNumber -> string;
  QString_number : Z -> string;
  parentDir : FilePath -> FilePath
}.

Section Headers.
Context `{V : Versions}.

(** The paths the two nested loops of [getClangHeadersPath] try, in the
    order they try them. *)
Definition includePaths (clangdFilePath : FilePath) (version : QVersionNumber)
    : list FilePath :=
  let libDirs := ["lib"; "lib64"] in
  let versionStrings :=
    [QString_number (majorVersion version); QVersionNumber_toString version] in
  flat_map (fun libDir =>
    List.map (fun versionString =>
      pathAppended
        (pathAppended
           (pathAppended
              (pathAppended (parentDir (absolutePath clangdFilePath)) libDir)
              "clang")
           versionString)
        "include") versionStrings) libDirs.

Definition getClangHeadersPath (clangdFilePath : FilePath) : FilePath :=
  let headersPath := getClangHeadersPathFromClang clangdFilePath in
  if negb (FilePath_isEmpty headersPath) then headersPath
  else
    let version := clangdVersion clangdFilePath in
    if negb (negb (QVersionNumber_isNull version)) then FilePath_null
    else
      match List.find FilePath_exists (includePaths clangdFilePath version) with
      | Some includePath => includePath
      | None => FilePath_null
      end.

End Headers.

End Settings.

End CppEditor.

(* ===================================================================== *)
(** * A concrete host for examples *)
(* ===================================================================== *)

Module Demo.

(** Paths and ids are strings; one document, "main.cpp", is open in the
    editors 0 and 1; it has ten lines of a hundred characters, a position
    is 100 times the line plus the column, and -1 for a line that is not
    in the document; character formats are the styles themselves. *)
Definition clientHost : LanguageClient.Host :=
  {| LanguageClient.FilePath := string;
     LanguageClient.Id := string;
     LanguageClient.TextDocument := string;
     LanguageClient.QTextDocument := string;
     LanguageClient.BaseTextEditor := nat;
     LanguageClient.QTextCharFormat := LanguageClient.TextStyle;
     LanguageClient.textDocumentForFilePath :=
       fun p => if bool_decide (p = "main.cpp") then Some p else None;
     LanguageClient.textEditorsForDocument := fun _ => [0%nat; 1%nat];
     LanguageClient.document := fun doc => doc;
     LanguageClient.characterCount := fun _ => 1000;
     LanguageClient.toPositionInDocument :=
       fun pos _ =>
         if (0 <=? LanguageClient.line pos) && (LanguageClient.line pos <? 10)
         then 100 * LanguageClient.line pos + LanguageClient.character pos
         else -1;
     LanguageClient.Range_fromCursor :=
       fun c =>
         let a := Z.min (LanguageClient.cursor_anchor c) (LanguageClient.cursor_position c) in
         let b := Z.max (LanguageClient.cursor_anchor c) (LanguageClient.cursor_position c) in
         {| LanguageClient.range_start :=
              {| LanguageClient.line := a / 100; LanguageClient.character := a mod 100 |};
            LanguageClient.range_end :=
              {| LanguageClient.line := b / 100; LanguageClient.character := b mod 100 |} |};
     LanguageClient.overlaps :=
       fun r1 r2 =>
         let pos p := 100 * LanguageClient.line p + LanguageClient.character p in
         (pos (LanguageClient.range_start r1) <=? pos (LanguageClient.range_end r2))
         && (pos (LanguageClient.range_start r2) <=? pos (LanguageClient.range_end r1));
     LanguageClient.toTextCharFormat := fun style => style;
     LanguageClient.CodeWarningsSelection := "CodeWarningsSelection" |}.

Definition client : LanguageClient.Client (H := clientHost) :=
  @LanguageClient.Build_Client clientHost "clangd" "Client.clangd"
    (fun _ => true) (fun _ => 3).

Definition pos (l c : Z) : LanguageClient.Position :=
  {| LanguageClient.line := l; LanguageClient.character := c |}.

Definition unusedVariable : LanguageClient.Diagnostic :=
  {| LanguageClient.range :=
       {| LanguageClient.range_start := pos 4 8; LanguageClient.range_end := pos 4 9 |};
     LanguageClient.severity := None;
     LanguageClient.message := "unused variable" |}.

Definition missingSemicolon : LanguageClient.Diagnostic :=
  {| LanguageClient.range :=
       {| LanguageClient.range_start := pos 7 20; LanguageClient.range_end := pos 7 21 |};
     LanguageClient.severity := Some LanguageClient.Error;
     LanguageClient.message := "expected ';'" |}.

(** A diagnostic that starts in the last line of the document and ends
    in the line after it. *)
Definition trailing : LanguageClient.Diagnostic :=
  {| LanguageClient.range :=
       {| LanguageClient.range_start := pos 9 50; LanguageClient.range_end := pos 10 0 |};
     LanguageClient.severity := Some LanguageClient.Warning;
     LanguageClient.message := "unterminated comment" |}.

(** A manager that was told the diagnostics of "main.cpp" at version 3
    and of "util.cpp" without a version. *)
Definition manager : LanguageClient.State (H := clientHost) :=
  LanguageClient.setDiagnostics (H := clientHost) "util.cpp" [unusedVariable] None
    (LanguageClient.setDiagnostics (H := clientHost) "main.cpp"
       [unusedVariable; missingSemicolon] (Some 3)
       (LanguageClient.DiagnosticManager_ctor client)).

(** Settings side: paths and ids are strings, the file system holds a clangd
    with its clang and resource directory under /usr and a clangd without
    clang, but with its headers, under /opt/llvm. *)
Definition existing : list string :=
  ["/usr/bin/clangd"; "/usr/bin/clang"; "/usr/lib/clang/17";
   "/usr/lib/clang/17/include"; "/opt/llvm/bin/clangd";
   "/opt/llvm/lib64/clang/17/include"; "/opt/llvm/lib64/clang/17.0.6/include"].

Fixpoint dropSpaces (s : string) : string :=
  match s with
  | String a s' => if Ascii.is_space a then dropSpaces s' else s
  | EmptyString => EmptyString
  end.

Definition settingsHost : CppEditor.Host :=
  {| CppEditor.FilePath := string;
     CppEditor.FilePath_null := "";
     CppEditor.FilePath_isEmpty := fun p => bool_decide (p = "");
     CppEditor.FilePath_exists := fun p => bool_decide (p ∈ existing);
     CppEditor.FilePath_fromString := fun s => s;
     CppEditor.FilePath_fromUserInput := fun s => s;
     CppEditor.FilePath_toString := fun p => p;
     CppEditor.absolutePath :=
       fun p => if bool_decide (p = "/usr/bin/clangd") then "/usr/bin"
                else if bool_decide (p = "/opt/llvm/bin/clangd") then "/opt/llvm/bin"
                else p;
     CppEditor.pathAppended := fun p s => p +:+ "/" +:+ s;
     CppEditor.withExecutableSuffix := fun p => p;
     CppEditor.searchInPath :=
       fun exe => if bool_decide (exe = "clangd") then "/usr/bin/clangd" else "";
     CppEditor.waitForFinished := fun _ => true;
     CppEditor.rawStdOut := fun _ => "/usr/lib/clang/17 ";
     CppEditor.trimmed := fun s => String.rev (dropSpaces (String.rev (dropSpaces s)));
     CppEditor.fromLocal8Bit := fun s => s;
     CppEditor.toNativeSeparators := fun s => s;
     CppEditor.qtcEnvironmentVariableIntValue := fun _ => (0, false);
     CppEditor.Id := string;
     CppEditor.Id_toSetting := fun i => CppEditor.VString i;
     CppEditor.Id_fromSetting :=
       fun v => match v with CppEditor.VString s => s | _ => "" end;
     CppEditor.CPP_CLANG_DIAG_CONFIG_BUILDSYSTEM := "Builtin.BuildSystem";
     CppEditor.ClangDiagnosticConfig := string;
     CppEditor.Off := CppEditor.IndexingPriority_cast 0;
     CppEditor.convertToBool := fun _ => false;
     CppEditor.convertToInt := fun _ => 0;
     CppEditor.convertToLongLong := fun _ => 0;
     CppEditor.convertToString := fun _ => "";
     CppEditor.convertToStringList := fun _ => [] |}.

(** Settings whose clangd is the one found in the search path. *)
Definition systemClangd : CppEditor.Data (H := settingsHost) :=
  @CppEditor.Build_Data settingsHost
    "/usr/bin/clangd"                  (* executableFilePath *)
    ["default"]                        (* sessionsWithOneClangd *)
    []                                 (* customDiagnosticConfigs *)
    "Builtin.BuildSystem"              (* diagnosticConfigId *)
    4                                  (* workerThreadLimit *)
    500                                (* documentUpdateThreshold *)
    1024                               (* sizeThresholdInKb *)
    true                               (* useClangd *)
    (CppEditor.IndexingPriority_cast 3)
    "%{BuildConfig:BuildDirectory:FilePath}/.qtc_clangd"
    "%{IDE:UserResourcePath}/.qtc_clangd/%{Session:FileBaseName}"
    (CppEditor.HeaderSourceSwitchMode_cast 2)
    (CppEditor.CompletionRankingModel_cast 0)
    false                              (* autoIncludeHeaders *)
    false                              (* sizeThresholdEnabled *)
    true                               (* haveCheckedHardwareReqirements *)
    100.                               (* completionResults *)

(** The same settings with a clangd of the user's own choice. *)
Definition ownClangd : CppEditor.Data (H := settingsHost) :=
  CppEditor.setClangdFilePath (H := settingsHost) ("/opt/llvm/bin/clangd" : string)
    systemClangd.

Definition project : CppEditor.ClangdProjectSettings (H := settingsHost) :=
  @CppEditor.Build_ClangdProjectSettings settingsHost ownClangd false true.

(** The version of every clangd of the example file system is 17.0.6. *)
Definition settingsVersions : CppEditor.Versions (H := settingsHost) :=
  @CppEditor.Build_Versions settingsHost
    (list Z)
    (fun _ => [17; 0; 6])
    (fun version => bool_decide (version = []))
    (fun version => hd 0 version)
    (fun _ => "17.0.6")
    (fun n => if bool_decide (n = 17) then "17" else "0")
    (fun p : string => if bool_decide (p = "/usr/bin") then "/usr"
                       else if bool_decide (p = "/opt/llvm/bin") then "/opt/llvm"
                       else p).

(** A project with settings of its own and nothing stored yet, beside a
    global instance with the settings of the system's clangd. *)
Definition projectState : CppEditor.ProjectSettingsState (H := settingsHost) :=
  @CppEditor.Build_ProjectSettingsState settingsHost
    (@CppEditor.Build_ClangdProjectSettings settingsHost ownClangd false false)
    (Some ∅) systemClangd 0%nat 0%nat.

End Demo.

(* ===================================================================== *)
(** * Properties of the diagnostic manager *)
(* ===================================================================== *)

Module LanguageClientSpec.
Import LanguageClient.

Section Manager.
Context `{H : Host}.

Implicit Types (filePath : FilePath) (s : State) (doc : TextDocument).

(** *** Cursors and selections *)

Lemma setPosition_document (pos : Z) (mode : MoveMode) (c : QTextCursor) :
  cursor_document (setPosition pos mode c) = cursor_document c.
Proof.
  unfold setPosition. destruct (cursor_document c) as [textDocument|] eqn:Hc; [|done].
  destruct (_ || _); [done|]. by destruct mode.
Qed.

Lemma setPosition_inside (pos : Z) (mode : MoveMode) (c : QTextCursor)
    (textDocument : QTextDocument) :
  cursor_document c = Some textDocument ->
  0 <= pos < characterCount textDocument ->
  cursor_position (setPosition pos mode c) = pos
  /\ cursor_anchor (setPosition pos mode c)
     = match mode with MoveAnchor => pos | KeepAnchor => cursor_anchor c end.
Proof.
  intros Hc Hpos. unfold setPosition. rewrite Hc.
  replace (pos <? 0) with false by (symmetry; apply Z.ltb_ge; lia).
  replace (characterCount textDocument <=? pos) with false
    by (symmetry; apply Z.leb_gt; lia).
  by destruct mode.
Qed.

Lemma setPosition_outside (pos : Z) (mode : MoveMode) (c : QTextCursor)
    (textDocument : QTextDocument) :
  cursor_document c = Some textDocument ->
  ~ 0 <= pos < characterCount textDocument ->
  setPosition pos mode c = c.
Proof.
  intros Hc Hpos. unfold setPosition. rewrite Hc.
  destruct (pos <? 0) eqn:Hlt; [reflexivity|].
  destruct (characterCount textDocument <=? pos) eqn:Hge; [reflexivity|].
  apply Z.ltb_ge in Hlt. apply Z.leb_gt in Hge. lia.
Qed.

Lemma createDiagnosticSelection_not_null (diagnostic : Diagnostic) (textDocument : QTextDocument) :
  isNull (cursor (createDiagnosticSelection diagnostic textDocument)) = false.
Proof.
  unfold isNull, createDiagnosticSelection. cbn [cursor].
  by rewrite !setPosition_document.
Qed.

(** C2: the mark of a diagnostic is an error mark (error colour, error
    icon) exactly when the severity, read as [Hint] when absent, is
    [Error]; otherwise it is a warning mark.  Annotation and tool tip are
    the message. *)
Theorem createTextMark_severity (dp : DiagnosticManagerPrivate) doc
    (diagnostic : Diagnostic) (isProjectFile : bool) :
  exists mark,
    createTextMark dp doc diagnostic isProjectFile = Some mark
    /\ (mark_color mark = Some CodeModel_Error_TextMarkColor
         <-> value_or (severity diagnostic) Hint = Error)
    /\ (mark_icon mark = Some CODEMODEL_ERROR
         <-> value_or (severity diagnostic) Hint = Error)
    /\ (value_or (severity diagnostic) Hint <> Error ->
         mark_color mark = Some CodeModel_Warning_TextMarkColor
         /\ mark_icon mark = Some CODEMODEL_WARNING)
    /\ mark_lineAnnotation mark = message diagnostic
    /\ mark_toolTip mark = message diagnostic.
Proof.
  eexists; split; [reflexivity|]. cbn.
  destruct (severity diagnostic) as [[]|]; cbn;
    repeat split; intros; try congruence; try discriminate.
Qed.

(** C3, as it holds: the selection of a diagnostic has its anchor at the
    document position of the start of its range and its position at that
    of the end, for each of the two that is a position of the document;
    a position outside the document is ignored by the cursor, which
    stays where it was: the anchor at the start of the document, the
    position at the anchor.  The selection is formatted in the error
    style exactly when the severity, read as [Warning] when absent, is
    [Error]; otherwise in the warning style. *)
Theorem createDiagnosticSelection_span (diagnostic : Diagnostic)
    (textDocument : QTextDocument) :
  let selection := createDiagnosticSelection diagnostic textDocument in
  let startPosition := toPositionInDocument (range_start (range diagnostic)) textDocument in
  let endPosition := toPositionInDocument (range_end (range diagnostic)) textDocument in
  let inside := fun pos : Z => 0 <= pos < characterCount textDocument in
  cursor_document (cursor selection) = Some textDocument
  /\ (inside startPosition -> cursor_anchor (cursor selection) = startPosition)
  /\ (~ inside startPosition -> cursor_anchor (cursor selection) = 0)
  /\ (inside endPosition -> cursor_position (cursor selection) = endPosition)
  /\ (~ inside endPosition ->
      cursor_position (cursor selection) = cursor_anchor (cursor selection))
  /\ (value_or (severity diagnostic) Warning = Error ->
      format selection = toTextCharFormat C_ERROR)
  /\ (value_or (severity diagnostic) Warning <> Error ->
      format selection = toTextCharFormat C_WARNING).
Proof.
  intros selection startPosition endPosition inside.
  set (c0 := QTextCursor_on textDocument).
  set (c1 := setPosition startPosition MoveAnchor c0).
  assert (Hsel : cursor selection = setPosition endPosition KeepAnchor c1) by reflexivity.
  assert (Hd0 : cursor_document c0 = Some textDocument) by reflexivity.
  assert (Hd1 : cursor_document c1 = Some textDocument)
    by (unfold c1; by rewrite setPosition_document).
  assert (Hc1 : (inside startPosition -> cursor_anchor c1 = startPosition
                                          /\ cursor_position c1 = startPosition)
                /\ (~ inside startPosition -> cursor_anchor c1 = 0
                                              /\ cursor_position c1 = 0)).
  { split; intros Hin; unfold c1.
    - destruct (setPosition_inside startPosition MoveAnchor c0 textDocument Hd0 Hin).
      done.
    - by rewrite (setPosition_outside startPosition MoveAnchor c0 textDocument Hd0 Hin). }
  assert (Hanchor : cursor_anchor (cursor selection) = cursor_anchor c1).
  { rewrite Hsel. destruct (decide (inside endPosition)) as [Hin|Hout].
    - by destruct (setPosition_inside endPosition KeepAnchor c1 textDocument Hd1 Hin).
    - by rewrite (setPosition_outside endPosition KeepAnchor c1 textDocument Hd1 Hout). }
  split; [rewrite Hsel; by rewrite setPosition_document|].
  split; [intros Hin; rewrite Hanchor; by apply Hc1|].
  split; [intros Hout; rewrite Hanchor; by apply Hc1|].
  split.
  { intros Hin. rewrite Hsel.
    by destruct (setPosition_inside endPosition KeepAnchor c1 textDocument Hd1 Hin). }
  split.
  { intros Hout. rewrite Hanchor, Hsel.
    rewrite (setPosition_outside endPosition KeepAnchor c1 textDocument Hd1 Hout).
    destruct (decide (inside startPosition)) as [Hin|Hno].
    - destruct (proj1 Hc1 Hin) as [-> ->]. reflexivity.
    - destruct (proj2 Hc1 Hno) as [-> ->]. reflexivity. }
  unfold selection, createDiagnosticSelection. cbn [format].
  split; intros Hs.
  - rewrite bool_decide_eq_true_2; done.
  - rewrite bool_decide_eq_false_2; done.
Qed.

(** *** The loops of [showDiagnostics] and [hideDiagnostics] *)

Lemma setExtraSelectionsForDocument_other doc (kind : Id) (selections : list ExtraSelection)
    (w : gmap (BaseTextEditor * Id) (list ExtraSelection)) (editor : BaseTextEditor) (k : Id) :
  editor ∉ textEditorsForDocument doc \/ k <> kind ->
  setExtraSelectionsForDocument doc kind selections w !! (editor, k) = w !! (editor, k).
Proof.
  unfold setExtraSelectionsForDocument.
  generalize (textEditorsForDocument doc) as editors. intros editors; revert w.
  induction editors as [|e editors IH]; intros w Hout; [reflexivity|].
  cbn. rewrite IH.
  - unfold setExtraSelections. apply lookup_insert_ne.
    intros [= -> ->]. destruct Hout as [Hout|Hout]; [|done].
    apply Hout. left.
  - destruct Hout as [Hout|Hout]; [left|right; done].
    intros Hin. apply Hout. by right.
Qed.

Lemma setExtraSelectionsForDocument_editor doc (kind : Id) (selections : list ExtraSelection)
    (w : gmap (BaseTextEditor * Id) (list ExtraSelection)) (editor : BaseTextEditor) :
  editor ∈ textEditorsForDocument doc ->
  setExtraSelectionsForDocument doc kind selections w !! (editor, kind) = Some selections.
Proof.
  unfold setExtraSelectionsForDocument.
  generalize (textEditorsForDocument doc) as editors. intros editors; revert w.
  induction editors as [|e editors IH]; intros w Hin.
  - by apply not_elem_of_nil in Hin.
  - cbn. destruct (decide (editor ∈ editors)) as [Hlater|Hlast]; [by apply IH|].
    apply elem_of_cons in Hin as [->|Hin]; [|done].
    pose proof (setExtraSelectionsForDocument_other) as Hother.
    unfold setExtraSelectionsForDocument in Hother.
    clear IH. revert w. induction editors as [|e' editors IH]; intros w.
    + cbn. unfold setExtraSelections. apply lookup_insert_eq.
    + cbn. apply not_elem_of_cons in Hlast as [Hne Hlast].
      specialize (IH Hlast).
      unfold setExtraSelections at 2 3.
      rewrite insert_insert_ne by congruence.
      apply IH.
Qed.

Lemma showDiagnostics_loop (dp : DiagnosticManagerPrivate) doc (isProjectFile : bool)
    (l : list Diagnostic) (selections : list ExtraSelection) (ms : list TextMark) :
  fold_left (showDiagnostics_body dp doc isProjectFile) l (selections, ms)
  = (selections ++ map (fun dg => createDiagnosticSelection dg (document doc)) l,
     ms ++ omap (fun dg => createTextMark dp doc dg isProjectFile) l).
Proof.
  revert selections ms. induction l as [|dg l IH]; intros selections ms; cbn.
  - by rewrite !app_nil_r.
  - unfold showDiagnostics_body at 2. cbn [fst snd].
    rewrite createDiagnosticSelection_not_null. cbn [negb].
    unfold createTextMark at 1. rewrite IH.
    rewrite <- !app_assoc. reflexivity.
Qed.

Lemma createTextMark_length (dp : DiagnosticManagerPrivate) doc (isProjectFile : bool)
    (l : list Diagnostic) :
  length (omap (fun dg => createTextMark dp doc dg isProjectFile) l) = length l.
Proof. induction l as [|dg l IH]; cbn; [reflexivity|]. by rewrite IH. Qed.

(** *** [showDiagnostics] *)

(** C4: [showDiagnostics] installs the selections of the stored
    diagnostics and creates their marks when the stored version, if any,
    is the given one and the stored list is not empty; in every other case
    the editors of the file get the empty selection list and no mark is
    created.  [textMarkCreated] is emitted only when a mark was created.
    Without an open document nothing happens at all. *)
Theorem showDiagnostics_cases filePath (ver : Z) s :
  let stored := default VersionedDiagnostics_default (m_diagnostics (d s) !! filePath) in
  let s' := showDiagnostics filePath ver s in
  let marksOf := fun t : State => marks (default Marks_default (m_marks (d t) !! filePath)) in
  let kind := m_extraSelectionsId (d s) in
  (forall doc,
      textDocumentForFilePath filePath = Some doc ->
      value_or (version stored) ver = ver ->
      diagnostics stored <> [] ->
      (forall editor, editor ∈ textEditorsForDocument doc ->
         extraSelections s' !! (editor, kind)
         = Some (map (fun dg => createDiagnosticSelection dg (document doc))
                     (diagnostics stored)))
      /\ marksOf s'
         = marksOf s
           ++ omap (fun dg => createTextMark (d s) doc dg
                                (fileBelongsToProject (m_client (d s)) filePath))
                   (diagnostics stored)
      /\ emitted s' = emitted s ++ [textMarkCreated filePath])
  /\ (~ (value_or (version stored) ver = ver /\ diagnostics stored <> []) ->
      m_marks (d s') = m_marks (d s)
      /\ emitted s' = emitted s
      /\ forall doc editor,
           textDocumentForFilePath filePath = Some doc ->
           editor ∈ textEditorsForDocument doc ->
           extraSelections s' !! (editor, kind) = Some [])
  /\ (m_marks (d s') <> m_marks (d s) ->
      value_or (version stored) ver = ver /\ diagnostics stored <> [])
  /\ (forall doc editor selection selections,
        textDocumentForFilePath filePath = Some doc ->
        editor ∈ textEditorsForDocument doc ->
        extraSelections s' !! (editor, kind) = Some (selection :: selections) ->
        value_or (version stored) ver = ver /\ diagnostics stored <> [])
  /\ (emitted s' <> emitted s -> (length (marksOf s) < length (marksOf s'))%nat)
  /\ (textDocumentForFilePath filePath = None -> s' = s).
Proof.
  intros stored s' marksOf kind.
  assert (Hshown : forall doc,
      textDocumentForFilePath filePath = Some doc ->
      value_or (version stored) ver = ver ->
      diagnostics stored <> [] ->
      s' = {| d := {| m_diagnostics := m_diagnostics (d s);
                      m_marks :=
                        <[filePath :=
                            {| enabled := enabled (default Marks_default
                                                     (m_marks (d s) !! filePath));
                               marks := marksOf s
                                 ++ omap (fun dg => createTextMark (d s) doc dg
                                            (fileBelongsToProject (m_client (d s)) filePath))
                                         (diagnostics stored) |}]> (m_marks (d s));
                      m_client := m_client (d s);
                      m_extraSelectionsId := kind |};
              extraSelections :=
                setExtraSelectionsForDocument doc kind
                  (map (fun dg => createDiagnosticSelection dg (document doc))
                       (diagnostics stored))
                  (extraSelections s);
              emitted := emitted s ++ [textMarkCreated filePath] |}).
  { intros doc Hdoc Hver Hne. subst s'. unfold showDiagnostics. rewrite Hdoc.
    fold stored. rewrite bool_decide_eq_true_2 by done.
    destruct (diagnostics stored) as [|dg l] eqn:Hl; [done|].
    cbn [isEmpty negb andb]. rewrite showDiagnostics_loop. cbn [app].
    fold (marksOf s).
    destruct (marksOf s ++ _) as [|m ms] eqn:Hms.
    - apply app_eq_nil in Hms as [_ Hms]. discriminate Hms.
    - reflexivity. }
  assert (Hother : forall doc,
      textDocumentForFilePath filePath = Some doc ->
      ~ (value_or (version stored) ver = ver /\ diagnostics stored <> []) ->
      s' = {| d := {| m_diagnostics := m_diagnostics (d s);
                      m_marks := m_marks (d s);
                      m_client := m_client (d s);
                      m_extraSelectionsId := kind |};
              extraSelections := setExtraSelectionsForDocument doc kind [] (extraSelections s);
              emitted := emitted s |}).
  { intros doc Hdoc Hno. subst s'. unfold showDiagnostics. rewrite Hdoc.
    fold stored.
    destruct (bool_decide _ && _) eqn:Hc; [|reflexivity].
    exfalso. apply Hno. apply andb_true_iff in Hc as [Hv Hl].
    apply bool_decide_eq_true_1 in Hv. split; [done|].
    intros Hnil. rewrite Hnil in Hl. discriminate Hl. }
  assert (Hnone : textDocumentForFilePath filePath = None -> s' = s).
  { intros Hdoc. subst s'. unfold showDiagnostics. by rewrite Hdoc. }
  assert (Hdec : Decision (value_or (version stored) ver = ver /\ diagnostics stored <> [])).
  { apply and_dec; [apply _|]. destruct (diagnostics stored); [right|left]; congruence. }
  split; [|split; [|split; [|split; [|split]]]].
  - intros doc Hdoc Hver Hne. rewrite (Hshown doc Hdoc Hver Hne). cbn.
    split; [|split; [|reflexivity]].
    + intros editor Hin. by apply setExtraSelectionsForDocument_editor.
    + unfold marksOf at 1. cbn. by rewrite lookup_insert_eq.
  - intros Hno. destruct (textDocumentForFilePath filePath) as [doc|] eqn:Hdoc.
    + rewrite (Hother doc eq_refl Hno). cbn. split; [done|split; [done|]].
      intros doc' editor [= <-] Hin. by apply setExtraSelectionsForDocument_editor.
    + rewrite (Hnone eq_refl). split; [done|split; [done|]]. intros ???; discriminate.
  - intros Hchg. destruct Hdec as [Hyes|Hno]; [done|]. exfalso. apply Hchg.
    destruct (textDocumentForFilePath filePath) as [doc|] eqn:Hdoc.
    + by rewrite (Hother doc eq_refl Hno).
    + by rewrite (Hnone eq_refl).
  - intros doc editor selection selections Hdoc Hin Hsel.
    destruct Hdec as [Hyes|Hno]; [done|]. exfalso.
    rewrite (Hother doc Hdoc Hno) in Hsel. cbn in Hsel.
    rewrite setExtraSelectionsForDocument_editor in Hsel by done. discriminate Hsel.
  - intros Hchg. destruct (textDocumentForFilePath filePath) as [doc|] eqn:Hdoc.
    + destruct Hdec as [[Hver Hne]|Hno].
      * rewrite (Hshown doc eq_refl Hver Hne). unfold marksOf at 2. cbn.
        rewrite lookup_insert_eq. cbn. rewrite length_app, createTextMark_length.
        destruct (diagnostics stored); [done|]. cbn. lia.
      * exfalso. apply Hchg. by rewrite (Hother doc eq_refl Hno).
    + exfalso. apply Hchg. by rewrite (Hnone eq_refl).
  - exact Hnone.
Qed.

(** *** [setDiagnostics], [hideDiagnostics], [diagnosticsAt] *)

(** C5: after [setDiagnostics] the entry of the file holds the given
    list as it was given ([filteredDiagnostics] returns its argument) and
    the given version, and the file has no marks any more. *)
Theorem setDiagnostics_stored filePath (diags : list Diagnostic) (ver : option Z) s :
  let s' := setDiagnostics filePath diags ver s in
  m_diagnostics (d s') !! filePath = Some {| version := ver; diagnostics := diags |}
  /\ filteredDiagnostics diags = diags
  /\ m_marks (d s') !! filePath = None.
Proof.
  cbn. split; [|split].
  - unfold filteredDiagnostics. apply lookup_insert_eq.
  - reflexivity.
  - apply lookup_delete_eq.
Qed.

Lemma filter_sublist {A} (p : A -> bool) (l : list A) : sublist (List.filter p l) l.
Proof.
  induction l as [|a l IH]; cbn; [constructor|].
  destruct (p a); by constructor.
Qed.

(** C6: [diagnosticsAt] is empty when the file has no entry and when the
    entry carries a version other than the client's document version;
    otherwise it is the stored list restricted, in order, to the
    diagnostics whose range overlaps the cursor's. *)
Theorem diagnosticsAt_cases filePath (c : QTextCursor) s :
  let revision := documentVersion (m_client (d s)) filePath in
  (m_diagnostics (d s) !! filePath = None -> diagnosticsAt filePath c s = [])
  /\ (forall it v,
        m_diagnostics (d s) !! filePath = Some it ->
        version it = Some v -> v <> revision ->
        diagnosticsAt filePath c s = [])
  /\ (forall it,
        m_diagnostics (d s) !! filePath = Some it ->
        version it = None \/ version it = Some revision ->
        diagnosticsAt filePath c s
        = List.filter (fun dg => overlaps (range dg) (Range_fromCursor c)) (diagnostics it)
        /\ (forall dg, dg ∈ diagnosticsAt filePath c s
                       <-> dg ∈ diagnostics it
                           /\ overlaps (range dg) (Range_fromCursor c) = true)
        /\ sublist (diagnosticsAt filePath c s) (diagnostics it)).
Proof.
  intros revision. unfold diagnosticsAt. fold revision. split; [|split].
  - intros ->. reflexivity.
  - intros it v -> -> Hne. cbn. rewrite bool_decide_eq_false_2; [reflexivity|congruence].
  - intros it -> Hv.
    rewrite bool_decide_eq_true_2 by (destruct Hv as [->| ->]; reflexivity).
    cbn [negb]. unfold filtered. split; [reflexivity|split].
    + intros dg. rewrite !list_elem_of_In. apply filter_In.
    + apply filter_sublist.
Qed.

(** C7: [setDiagnostics] and [hideDiagnostics] on one file leave the
    stored diagnostics and the marks of every other file as they were. *)
Theorem setDiagnostics_hideDiagnostics_frame (p q : FilePath) (diags : list Diagnostic)
    (ver : option Z) s :
  p <> q ->
  m_diagnostics (d (setDiagnostics p diags ver s)) !! q = m_diagnostics (d s) !! q
  /\ m_marks (d (setDiagnostics p diags ver s)) !! q = m_marks (d s) !! q
  /\ m_diagnostics (d (hideDiagnostics p s)) !! q = m_diagnostics (d s) !! q
  /\ m_marks (d (hideDiagnostics p s)) !! q = m_marks (d s) !! q.
Proof.
  intros Hpq. cbn. repeat split.
  - by apply lookup_insert_ne.
  - by apply lookup_delete_ne.
  - by apply lookup_delete_ne.
Qed.

End Manager.

(** *** On the example host *)

Example showDiagnostics_main_emits :
  emitted (showDiagnostics (H := Demo.clientHost) "main.cpp" 3 Demo.manager)
  = [textMarkCreated (H := Demo.clientHost) "main.cpp"].
Proof. vm_compute. reflexivity. Qed.

Example showDiagnostics_main_stale :
  let s' := showDiagnostics (H := Demo.clientHost) "main.cpp" 2 Demo.manager in
  emitted s' = []
  /\ extraSelections s' !! (1%nat, "CodeWarningsSelection" : string) = Some []
  /\ m_marks (d s') !! ("main.cpp" : string) = None.
Proof. cbv zeta. split; [|split]; vm_compute; reflexivity. Qed.

Example diagnosticsAt_main :
  let c := setPosition (H := Demo.clientHost) 720 MoveAnchor
             (QTextCursor_on (H := Demo.clientHost) ("main.cpp" : string)) in
  diagnosticsAt (H := Demo.clientHost) "main.cpp" c Demo.manager
  = [Demo.missingSemicolon].
Proof. vm_compute. reflexivity. Qed.

Lemma setDiagnostics_hideDiagnostics_frame_witness :
  ("main.cpp" : string) <> "util.cpp"
  /\ m_diagnostics (d (setDiagnostics (H := Demo.clientHost) "main.cpp" [] None
                                      Demo.manager)) !! ("util.cpp" : string)
     = m_diagnostics (d Demo.manager) !! ("util.cpp" : string).
Proof.
  split; [discriminate|].
  apply (setDiagnostics_hideDiagnostics_frame (H := Demo.clientHost)
           "main.cpp" "util.cpp" [] None Demo.manager).
  discriminate.
Defined.

Lemma createTextMark_severity_witness :
  severity Demo.missingSemicolon = Some Error
  /\ exists mark,
       createTextMark (H := Demo.clientHost) (d Demo.manager) ("main.cpp" : string)
                      Demo.missingSemicolon true = Some mark
       /\ mark_color mark = Some CodeModel_Error_TextMarkColor
       /\ mark_icon mark = Some CODEMODEL_ERROR.
Proof.
  split; [reflexivity|].
  destruct (createTextMark_severity (H := Demo.clientHost) (d Demo.manager)
              ("main.cpp" : string) Demo.missingSemicolon true)
    as (mark & Hmark & Hcolor & Hicon & _).
  exists mark. split; [exact Hmark|]. split.
  - apply Hcolor. reflexivity.
  - apply Hicon. reflexivity.
Defined.

Lemma createDiagnosticSelection_span_witness :
  let selection := createDiagnosticSelection (H := Demo.clientHost) Demo.unusedVariable
                     ("main.cpp" : string) in
  severity Demo.unusedVariable = None
  /\ 0 <= 408 < characterCount (Host := Demo.clientHost) ("main.cpp" : string)
  /\ cursor_anchor (cursor selection) = 408
  /\ cursor_position (cursor selection) = 409
  /\ format selection = C_WARNING.
Proof.
  cbv zeta. split; [reflexivity|]. split; [vm_compute; split; [discriminate|reflexivity]|].
  destruct (createDiagnosticSelection_span (H := Demo.clientHost)
              Demo.unusedVariable ("main.cpp" : string))
    as (_ & Hanchor & _ & Hposition & _ & _ & Hwarning).
  split; [apply Hanchor; vm_compute; split; [discriminate|reflexivity]|].
  split; [apply Hposition; vm_compute; split; [discriminate|reflexivity]|].
  apply Hwarning. discriminate.
Defined.

(** C3 as stated fails: a diagnostic that runs to a line after the last
    one has no end position in the document, and the selection ends where
    it starts. *)
Lemma createDiagnosticSelection_span_outside :
  let selection := createDiagnosticSelection (H := Demo.clientHost) Demo.trailing
                     ("main.cpp" : string) in
  toPositionInDocument (Host := Demo.clientHost)
    (range_end (range Demo.trailing)) ("main.cpp" : string) = -1
  /\ cursor_anchor (cursor selection) = 950
  /\ cursor_position (cursor selection) = 950
  /\ cursor_position (cursor selection)
     <> toPositionInDocument (Host := Demo.clientHost)
          (range_end (range Demo.trailing)) ("main.cpp" : string).
Proof.
  cbv zeta. repeat split; try (vm_compute; reflexivity).
  vm_compute. discriminate.
Qed.

Lemma showDiagnostics_cases_witness :
  let s := Demo.manager in
  let s' := showDiagnostics (H := Demo.clientHost) "main.cpp" 3 s in
  textDocumentForFilePath (Host := Demo.clientHost) "main.cpp" = Some ("main.cpp" : string)
  /\ (forall editor : nat,
        editor ∈ [0%nat; 1%nat] ->
        extraSelections s' !! (editor, "CodeWarningsSelection" : string)
        = Some (map (fun dg => createDiagnosticSelection (H := Demo.clientHost) dg
                                 ("main.cpp" : string))
                    [Demo.unusedVariable; Demo.missingSemicolon]))
  /\ emitted s' = emitted s ++ [textMarkCreated (H := Demo.clientHost) "main.cpp"].
Proof.
  cbv zeta. split; [reflexivity|].
  destruct (showDiagnostics_cases (H := Demo.clientHost) "main.cpp" 3 Demo.manager)
    as [Hshown _].
  destruct (Hshown "main.cpp") as (Hsel & _ & Hemit).
  - reflexivity.
  - vm_compute. reflexivity.
  - vm_compute. discriminate.
  - split; [exact Hsel|exact Hemit].
Defined.

Lemma diagnosticsAt_cases_witness :
  let c := setPosition (H := Demo.clientHost) 408 MoveAnchor
             (QTextCursor_on (H := Demo.clientHost) ("main.cpp" : string)) in
  m_diagnostics (d Demo.manager) !! ("main.cpp" : string)
  = Some {| version := Some 3;
            diagnostics := [Demo.unusedVariable; Demo.missingSemicolon] |}
  /\ diagnosticsAt (H := Demo.clientHost) "main.cpp" c Demo.manager
     = List.filter
         (fun dg => overlaps (Host := Demo.clientHost) (range dg) (Range_fromCursor c))
         [Demo.unusedVariable; Demo.missingSemicolon].
Proof.
  cbv zeta.
  assert (Hit : m_diagnostics (d Demo.manager) !! ("main.cpp" : string)
                = Some {| version := Some 3;
                          diagnostics := [Demo.unusedVariable;
                                          Demo.missingSemicolon] |})
    by (vm_compute; reflexivity).
  split; [exact Hit|].
  destruct (diagnosticsAt_cases (H := Demo.clientHost) "main.cpp"
              (setPosition (H := Demo.clientHost) 408 MoveAnchor
                 (QTextCursor_on (H := Demo.clientHost) ("main.cpp" : string)))
              Demo.manager) as (_ & _ & Hkept).
  destruct (Hkept _ Hit) as [Heq _].
  - right. reflexivity.
  - exact Heq.
Defined.

End LanguageClientSpec.

(* ===================================================================== *)
(** * Properties of the clangd settings *)
(* ===================================================================== *)

Module CppEditorSpec.
Import CppEditor.

Section Settings.
Context `{H : Host}.

Implicit Types (data this : Data) (map : gmap string QVariant).

(** *** What [toMap] stores under each key *)

Ltac lookup_toMap :=
  unfold toMap; cbv zeta;
  repeat (rewrite lookup_insert_ne by discriminate);
  apply lookup_insert_eq.

Lemma toMap_useClangd g data :
  toMap g data !! useClangdKey = Some (VBool (useClangd data)).
Proof. lookup_toMap. Qed.

Lemma toMap_clangdPath g data :
  toMap g data !! clangdPathKey
  = Some (VString (if bool_decide (executableFilePath data ≠ fallbackClangdFilePath g)
                   then FilePath_toString (executableFilePath data) else "")).
Proof. lookup_toMap. Qed.

Lemma toMap_clangdIndexing g data :
  toMap g data !! clangdIndexingKey = Some (VBool (bool_decide (indexingPriority data ≠ Off))).
Proof. lookup_toMap. Qed.

Lemma toMap_clangdIndexingPriority g data :
  toMap g data !! clangdIndexingPriorityKey = Some (VInt (IndexingPriority_int (indexingPriority data))).
Proof. lookup_toMap. Qed.

Lemma toMap_clangdProjectIndexPath g data :
  toMap g data !! clangdProjectIndexPathKey = Some (VString (projectIndexPathTemplate data)).
Proof. lookup_toMap. Qed.

Lemma toMap_clangdSessionIndexPath g data :
  toMap g data !! clangdSessionIndexPathKey = Some (VString (sessionIndexPathTemplate data)).
Proof. lookup_toMap. Qed.

Lemma toMap_clangdHeaderSourceSwitchMode g data :
  toMap g data !! clangdHeaderSourceSwitchModeKey = Some (VInt (HeaderSourceSwitchMode_int (headerSourceSwitchMode data))).
Proof. lookup_toMap. Qed.

Lemma toMap_clangdCompletionRankingModel g data :
  toMap g data !! clangdCompletionRankingModelKey = Some (VInt (CompletionRankingModel_int (completionRankingModel data))).
Proof. lookup_toMap. Qed.

Lemma toMap_clangdHeaderInsertion g data :
  toMap g data !! clangdHeaderInsertionKey = Some (VBool (autoIncludeHeaders data)).
Proof. lookup_toMap. Qed.

Lemma toMap_clangdThreadLimit g data :
  toMap g data !! clangdThreadLimitKey = Some (VInt (workerThreadLimit data)).
Proof. lookup_toMap. Qed.

Lemma toMap_clangdDocumentThreshold g data :
  toMap g data !! clangdDocumentThresholdKey = Some (VInt (documentUpdateThreshold data)).
Proof. lookup_toMap. Qed.

Lemma toMap_clangdSizeThresholdEnabled g data :
  toMap g data !! clangdSizeThresholdEnabledKey = Some (VBool (sizeThresholdEnabled data)).
Proof. lookup_toMap. Qed.

Lemma toMap_clangdSizeThreshold g data :
  toMap g data !! clangdSizeThresholdKey = Some (VLongLong (sizeThresholdInKb data)).
Proof. lookup_toMap. Qed.

Lemma toMap_sessionsWithOneClangd g data :
  toMap g data !! sessionsWithOneClangdKey = Some (VStringList (sessionsWithOneClangd data)).
Proof. lookup_toMap. Qed.

Lemma toMap_diagnosticConfigId g data :
  toMap g data !! diagnosticConfigIdKey = Some (Id_toSetting (diagnosticConfigId data)).
Proof. lookup_toMap. Qed.

Lemma toMap_checkedHardware g data :
  toMap g data !! checkedHardwareKey = Some (VBool (haveCheckedHardwareReqirements data)).
Proof. lookup_toMap. Qed.

Lemma toMap_completionResults g data :
  toMap g data !! completionResultsKey = Some (VInt (completionResults data)).
Proof. lookup_toMap. Qed.

(** *** Round trip *)

(** C1, as it holds: reading back what [toMap] wrote restores every
    member but two.  [customDiagnosticConfigs] is not in the store and
    stays as it is in the object read into.  [executableFilePath] comes
    back when it differs from the fallback clangd path; when it is the
    fallback path, the text stored for it is empty and what comes back is
    the path [FilePath::fromString] makes of the empty text.  This holds
    provided a path that differs from the fallback path survives
    [toString] and [fromString], and the diagnostic configuration id
    survives [toSetting] and [fromSetting]. *)
Theorem fromMap_toMap (g : FilePath) this data :
  (executableFilePath data <> fallbackClangdFilePath g ->
   FilePath_fromString (FilePath_toString (executableFilePath data))
   = executableFilePath data) ->
  Id_fromSetting (Id_toSetting (diagnosticConfigId data)) = diagnosticConfigId data ->
  fromMap this (toMap g data)
  = setClangdFilePath
      (if decide (executableFilePath data = fallbackClangdFilePath g)
       then FilePath_fromString "" else executableFilePath data)
      (Data_set_customDiagnosticConfigs (customDiagnosticConfigs this) data).
Proof.
  intros Hne Hid. unfold fromMap, value1, value.
  rewrite toMap_useClangd, toMap_clangdPath, toMap_clangdIndexing, toMap_clangdIndexingPriority, toMap_clangdProjectIndexPath, toMap_clangdSessionIndexPath, toMap_clangdHeaderSourceSwitchMode, toMap_clangdCompletionRankingModel, toMap_clangdHeaderInsertion, toMap_clangdThreadLimit, toMap_clangdDocumentThreshold, toMap_clangdSizeThresholdEnabled, toMap_clangdSizeThreshold, toMap_sessionsWithOneClangd, toMap_diagnosticConfigId, toMap_checkedHardware, toMap_completionResults.
  unfold setClangdFilePath, Data_set_customDiagnosticConfigs. f_equal; cbn.
  - destruct (decide (executableFilePath data = fallbackClangdFilePath g)) as [E|E].
    + rewrite bool_decide_eq_false_2 by (intros Hno; by apply Hno). reflexivity.
    + rewrite bool_decide_eq_true_2 by done. by apply Hne.
  - exact Hid.
  - destruct (decide (indexingPriority data = Off)) as [E|E].
    + rewrite bool_decide_eq_false_2 by (intros Hno; by apply Hno). by rewrite E.
    + rewrite bool_decide_eq_true_2 by done. cbn. by destruct (indexingPriority data).
  - by destruct (headerSourceSwitchMode data).
  - by destruct (completionRankingModel data).
Qed.

(** *** Reading a store *)

(** C9: a key that is missing from the store gives the member its
    default, and a stored indexing flag that reads as false switches
    indexing off whatever priority is stored. *)
Theorem fromMap_defaults this map :
  let data := fromMap this map in
  (map !! useClangdKey = None -> useClangd data = true)
  /\ (map !! clangdHeaderInsertionKey = None -> autoIncludeHeaders data = false)
  /\ (map !! clangdThreadLimitKey = None -> workerThreadLimit data = 0)
  /\ (map !! clangdDocumentThresholdKey = None -> documentUpdateThreshold data = 500)
  /\ (map !! clangdSizeThresholdEnabledKey = None -> sizeThresholdEnabled data = false)
  /\ (map !! clangdSizeThresholdKey = None -> sizeThresholdInKb data = 1024)
  /\ (map !! checkedHardwareKey = None -> haveCheckedHardwareReqirements data = false)
  /\ (map !! completionResultsKey = None ->
      snd (qtcEnvironmentVariableIntValue "QTC_CLANGD_COMPLETION_RESULTS") = false ->
      completionResults data = 100)
  /\ (forall it, map !! clangdIndexingKey = Some it -> toBool it = false ->
      indexingPriority data = Off).
Proof.
  cbn. unfold value. repeat split; try (intros ->; reflexivity).
  - intros -> Hok. cbn. unfold defaultCompletionResults.
    destruct (qtcEnvironmentVariableIntValue _) as [userValue ok].
    cbn in Hok. by rewrite Hok.
  - intros it -> ->. reflexivity.
Qed.

(** *** The clang headers *)

(** C8: [getClangHeadersPathFromClang] returns the empty path when there
    is no clang next to clangd, when the clang process does not finish,
    when the resource directory it prints is empty or missing, and when
    that directory has no "include" subdirectory; otherwise it returns
    that subdirectory. *)
Theorem getClangHeadersPathFromClang_cases (clangdFilePath : FilePath) :
  let clangFilePath :=
    withExecutableSuffix (pathAppended (absolutePath clangdFilePath) "clang") in
  let clang := (clangFilePath, ["-print-resource-dir"]) in
  let resourceDir := FilePath_fromUserInput (fromLocal8Bit (trimmed (rawStdOut clang))) in
  let includeDir := pathAppended resourceDir "include" in
  (FilePath_exists clangFilePath = false ->
   getClangHeadersPathFromClang clangdFilePath = FilePath_null)
  /\ (waitForFinished clang = false ->
      getClangHeadersPathFromClang clangdFilePath = FilePath_null)
  /\ (FilePath_isEmpty resourceDir = true \/ FilePath_exists resourceDir = false ->
      getClangHeadersPathFromClang clangdFilePath = FilePath_null)
  /\ (FilePath_exists includeDir = false ->
      getClangHeadersPathFromClang clangdFilePath = FilePath_null)
  /\ (FilePath_exists clangFilePath = true ->
      waitForFinished clang = true ->
      FilePath_isEmpty resourceDir = false ->
      FilePath_exists resourceDir = true ->
      FilePath_exists includeDir = true ->
      getClangHeadersPathFromClang clangdFilePath = includeDir).
Proof.
  intros clangFilePath clang resourceDir includeDir.
  unfold getClangHeadersPathFromClang.
  fold clangFilePath. fold clang. fold resourceDir. fold includeDir.
  destruct (FilePath_exists clangFilePath), (waitForFinished clang),
    (FilePath_isEmpty resourceDir), (FilePath_exists resourceDir),
    (FilePath_exists includeDir); cbn;
    repeat split; intros; try reflexivity; try discriminate;
    repeat match goal with Hor : _ \/ _ |- _ => destruct Hor end; discriminate.
Qed.

(** *** Project settings *)

(** C10: a project with settings of its own gets them back from
    [settings()], except that the sessions with one clangd and the custom
    diagnostic configurations are those of the global instance; and when
    indexing is blocked for the project the indexing priority is [Off]. *)
Theorem settings_custom (instanceData : Data) (project : ClangdProjectSettings) :
  (m_useGlobalSettings project = false ->
   let custom := m_customSettings project in
   settings instanceData project
   = {| executableFilePath := executableFilePath custom;
        sessionsWithOneClangd := sessionsWithOneClangd instanceData;
        customDiagnosticConfigs := customDiagnosticConfigs instanceData;
        diagnosticConfigId := diagnosticConfigId custom;
        workerThreadLimit := workerThreadLimit custom;
        documentUpdateThreshold := documentUpdateThreshold custom;
        sizeThresholdInKb := sizeThresholdInKb custom;
        useClangd := useClangd custom;
        indexingPriority :=
          if m_blockIndexing project then Off else indexingPriority custom;
        projectIndexPathTemplate := projectIndexPathTemplate custom;
        sessionIndexPathTemplate := sessionIndexPathTemplate custom;
        headerSourceSwitchMode := headerSourceSwitchMode custom;
        completionRankingModel := completionRankingModel custom;
        autoIncludeHeaders := autoIncludeHeaders custom;
        sizeThresholdEnabled := sizeThresholdEnabled custom;
        haveCheckedHardwareReqirements := haveCheckedHardwareReqirements custom;
        completionResults := completionResults custom |})
  /\ (m_blockIndexing project = true ->
      indexingPriority (settings instanceData project) = Off).
Proof.
  unfold settings. split.
  - intros ->. cbn. by destruct (m_blockIndexing project).
  - intros ->. reflexivity.
Qed.

End Settings.

(** *** On the example host *)

(** C1 as stated fails: settings whose executable is the fallback clangd
    are written with an empty path and read back with an empty path. *)
Lemma fromMap_toMap_fallback_lost :
  let g : string := "" in
  executableFilePath Demo.systemClangd
  = fallbackClangdFilePath (H := Demo.settingsHost) g
  /\ executableFilePath
       (fromMap (H := Demo.settingsHost) Demo.systemClangd
                (toMap (H := Demo.settingsHost) g Demo.systemClangd))
     = ("" : string)
  /\ fromMap (H := Demo.settingsHost) Demo.systemClangd
             (toMap (H := Demo.settingsHost) g Demo.systemClangd)
     <> Demo.systemClangd.
Proof.
  cbv zeta. split; [|split].
  - vm_compute. reflexivity.
  - vm_compute. reflexivity.
  - intros E. apply (f_equal executableFilePath) in E. vm_compute in E. discriminate E.
Qed.

Lemma fromMap_toMap_witness :
  fromMap (H := Demo.settingsHost) Demo.systemClangd
          (toMap (H := Demo.settingsHost) ("" : string) Demo.ownClangd)
  = Demo.ownClangd
  /\ executableFilePath Demo.systemClangd
     = fallbackClangdFilePath (H := Demo.settingsHost) ("" : string)
  /\ fromMap (H := Demo.settingsHost) Demo.systemClangd
             (toMap (H := Demo.settingsHost) ("" : string) Demo.systemClangd)
     = setClangdFilePath (H := Demo.settingsHost) ("" : string) Demo.systemClangd.
Proof.
  split; [|split; [vm_compute; reflexivity|]].
  - etransitivity.
    + apply (fromMap_toMap (H := Demo.settingsHost) ("" : string) Demo.systemClangd
               Demo.ownClangd); reflexivity.
    + vm_compute. reflexivity.
  - etransitivity.
    + apply (fromMap_toMap (H := Demo.settingsHost) ("" : string) Demo.systemClangd
               Demo.systemClangd); reflexivity.
    + vm_compute. reflexivity.
Defined.

Lemma fromMap_defaults_witness :
  let map : gmap string QVariant :=
    <[clangdIndexingKey := VBool false]> (<[clangdIndexingPriorityKey := VInt 3]> ∅) in
  let data := fromMap (H := Demo.settingsHost) Demo.systemClangd map in
  map !! clangdSizeThresholdKey = None
  /\ map !! clangdIndexingKey = Some (VBool false)
  /\ sizeThresholdInKb data = 1024
  /\ indexingPriority data = IndexingPriority_cast 0.
Proof.
  cbv zeta. split; [reflexivity|]. split; [reflexivity|].
  destruct (fromMap_defaults (H := Demo.settingsHost) Demo.systemClangd
              (<[clangdIndexingKey := VBool false]>
                 (<[clangdIndexingPriorityKey := VInt 3]> ∅)))
    as (_ & _ & _ & _ & _ & Hsize & _ & _ & Hoff).
  split.
  - apply Hsize. reflexivity.
  - apply (Hoff (VBool false)); reflexivity.
Defined.

Lemma getClangHeadersPathFromClang_cases_witness :
  FilePath_exists (Host := Demo.settingsHost) ("/usr/bin/clang" : string) = true
  /\ getClangHeadersPathFromClang (H := Demo.settingsHost) ("/usr/bin/clangd" : string)
     = ("/usr/lib/clang/17/include" : string).
Proof.
  split; [reflexivity|].
  destruct (getClangHeadersPathFromClang_cases (H := Demo.settingsHost)
              ("/usr/bin/clangd" : string)) as (_ & _ & _ & _ & Hfound).
  etransitivity; [apply Hfound; vm_compute; reflexivity|].
  vm_compute. reflexivity.
Defined.

Lemma settings_custom_witness :
  m_useGlobalSettings Demo.project = false
  /\ m_blockIndexing Demo.project = true
  /\ executableFilePath
       (settings (H := Demo.settingsHost) Demo.systemClangd Demo.project)
     = ("/opt/llvm/bin/clangd" : string)
  /\ indexingPriority
       (settings (H := Demo.settingsHost) Demo.systemClangd Demo.project)
     = IndexingPriority_cast 0.
Proof.
  split; [reflexivity|]. split; [reflexivity|].
  destruct (settings_custom (H := Demo.settingsHost) Demo.systemClangd
              Demo.project) as [Hcustom Hblocked].
  split.
  - rewrite (Hcustom eq_refl). reflexivity.
  - apply Hblocked. reflexivity.
Defined.

Example getClangHeadersPathFromClang_usr :
  getClangHeadersPathFromClang (H := Demo.settingsHost) ("/usr/bin/clangd" : string)
  = ("/usr/lib/clang/17/include" : string).
Proof. vm_compute. reflexivity. Qed.

Example getClangHeadersPathFromClang_opt :
  getClangHeadersPathFromClang (H := Demo.settingsHost) ("/opt/llvm/bin/clangd" : string)
  = ("" : string).
Proof. vm_compute. reflexivity. Qed.

Example settings_project :
  let data := settings (H := Demo.settingsHost) Demo.systemClangd Demo.project in
  executableFilePath data = ("/opt/llvm/bin/clangd" : string)
  /\ indexingPriority data = IndexingPriority_cast 0.
Proof. vm_compute. split; reflexivity. Qed.

End CppEditorSpec.

(* ===================================================================== *)
(** * Further properties of the diagnostic manager *)
(* ===================================================================== *)

Module LanguageClientMore.
Import LanguageClient.

Section Manager.
Context `{H : Host}.

Implicit Types (p q filePath : FilePath) (s : State) (doc : TextDocument).
Implicit Types (diags : list Diagnostic) (c : QTextCursor).

(** *** [showDiagnostics] and [hideDiagnostics] in closed form *)

(** The mark [createTextMark] makes is the constructor's mark with the
    copy action; only the client of the manager enters it. *)
Lemma createTextMark_omap (dp : DiagnosticManagerPrivate) doc (b : bool) diags :
  omap (fun dg => createTextMark dp doc dg b) diags
  = map (fun dg => setActionsProvider [copyAction (message dg)]
                     (TextMark_ctor doc dg (m_client dp))) diags.
Proof. induction diags as [|dg l IH]; cbn; [reflexivity|]. by rewrite IH. Qed.

Lemma showDiagnostics_shown p (ver : Z) s doc :
  textDocumentForFilePath p = Some doc ->
  value_or (version (default VersionedDiagnostics_default (m_diagnostics (d s) !! p))) ver
  = ver ->
  diagnostics (default VersionedDiagnostics_default (m_diagnostics (d s) !! p)) <> [] ->
  showDiagnostics p ver s
  = {| d := {| m_diagnostics := m_diagnostics (d s);
               m_marks :=
                 <[p := {| enabled := enabled (default Marks_default (m_marks (d s) !! p));
                           marks :=
                             marks (default Marks_default (m_marks (d s) !! p))
                             ++ map (fun dg => setActionsProvider [copyAction (message dg)]
                                                 (TextMark_ctor doc dg (m_client (d s))))
                                    (diagnostics (default VersionedDiagnostics_default
                                                    (m_diagnostics (d s) !! p))) |}]>
                   (m_marks (d s));
               m_client := m_client (d s);
               m_extraSelectionsId := m_extraSelectionsId (d s) |};
       extraSelections :=
         setExtraSelectionsForDocument doc (m_extraSelectionsId (d s))
           (map (fun dg => createDiagnosticSelection dg (document doc))
                (diagnostics (default VersionedDiagnostics_default
                                (m_diagnostics (d s) !! p))))
           (extraSelections s);
       emitted := emitted s ++ [textMarkCreated p] |}.
Proof.
  intros Hdoc Hver Hne. unfold showDiagnostics. rewrite Hdoc.
  rewrite bool_decide_eq_true_2 by done.
  destruct (diagnostics _) as [|dg l] eqn:Hl; [done|].
  cbn [isEmpty negb andb].
  rewrite LanguageClientSpec.showDiagnostics_loop, createTextMark_omap. cbn [app].
  destruct (marks _ ++ _) as [|m ms] eqn:Hms; [|reflexivity].
  apply app_eq_nil in Hms as [_ Hms]. discriminate Hms.
Qed.

Lemma showDiagnostics_not_shown p (ver : Z) s doc :
  textDocumentForFilePath p = Some doc ->
  ~ (value_or (version (default VersionedDiagnostics_default (m_diagnostics (d s) !! p))) ver
     = ver
     /\ diagnostics (default VersionedDiagnostics_default (m_diagnostics (d s) !! p)) <> []) ->
  showDiagnostics p ver s
  = {| d := {| m_diagnostics := m_diagnostics (d s);
               m_marks := m_marks (d s);
               m_client := m_client (d s);
               m_extraSelectionsId := m_extraSelectionsId (d s) |};
       extraSelections :=
         setExtraSelectionsForDocument doc (m_extraSelectionsId (d s)) [] (extraSelections s);
       emitted := emitted s |}.
Proof.
  intros Hdoc Hno. unfold showDiagnostics. rewrite Hdoc.
  destruct (bool_decide _ && _) eqn:Hc; [|reflexivity].
  exfalso. apply Hno. apply andb_true_iff in Hc as [Hv Hl].
  apply bool_decide_eq_true_1 in Hv. split; [done|].
  intros Hnil. rewrite Hnil in Hl. discriminate Hl.
Qed.

Lemma showDiagnostics_no_document p (ver : Z) s :
  textDocumentForFilePath p = None -> showDiagnostics p ver s = s.
Proof. intros Hdoc. unfold showDiagnostics. by rewrite Hdoc. Qed.

Lemma showDiagnostics_m_diagnostics p (ver : Z) s :
  m_diagnostics (d (showDiagnostics p ver s)) = m_diagnostics (d s).
Proof.
  unfold showDiagnostics. destruct (textDocumentForFilePath p); [|reflexivity].
  destruct (bool_decide _ && _); [|reflexivity].
  destruct (fold_left _ _ _). reflexivity.
Qed.

Lemma showDiagnostics_m_client p (ver : Z) s :
  m_client (d (showDiagnostics p ver s)) = m_client (d s)
  /\ m_extraSelectionsId (d (showDiagnostics p ver s)) = m_extraSelectionsId (d s).
Proof.
  unfold showDiagnostics. destruct (textDocumentForFilePath p); [|done].
  destruct (bool_decide _ && _); [|done].
  destruct (fold_left _ _ _). done.
Qed.

(** *** Diagnostics arrive, then are shown *)

Lemma int_add_1 (n : Z) :
  -2147483648 <= n < 2147483647 -> int_add n 1 = n + 1.
Proof.
  intros Hn. unfold int_add, int_wrap. rewrite Z.mod_small by lia. lia.
Qed.

(** X1: with a document open for the file, [setDiagnostics] followed by
    [showDiagnostics] leaves, when the list is not empty and the version
    given with it is absent or the one shown, the file with one enabled
    mark per diagnostic, in order, annotated with the message, whatever
    marks the file had before; the mark is on the protocol's line plus
    one, added as [int]s, which is the next line for every line below the
    largest [int].  Every editor of the document then shows one selection
    per diagnostic and the signal is emitted once.  When the list is
    empty or the version is another one, the file has no marks, its
    editors show no selection and nothing is emitted. *)
Theorem setDiagnostics_showDiagnostics p diags (v : option Z) (ver : Z) s doc :
  textDocumentForFilePath p = Some doc ->
  let s' := showDiagnostics p ver (setDiagnostics p diags v s) in
  (value_or v ver = ver -> diags <> [] ->
   exists fileMarks,
     m_marks (d s') !! p = Some {| enabled := true; marks := fileMarks |}
     /\ map mark_lineNumber fileMarks
        = map (fun dg => int_add (line (range_start (range dg))) 1) diags
     /\ (Forall (fun dg => -2147483648 <= line (range_start (range dg)) < 2147483647)
                diags ->
         map mark_lineNumber fileMarks
         = map (fun dg => line (range_start (range dg)) + 1) diags)
     /\ map mark_lineAnnotation fileMarks = map message diags
     /\ map mark_toolTip fileMarks = map message diags
     /\ (forall editor, editor ∈ textEditorsForDocument doc ->
         extraSelections s' !! (editor, m_extraSelectionsId (d s))
         = Some (map (fun dg => createDiagnosticSelection dg (document doc)) diags))
     /\ emitted s' = emitted s ++ [textMarkCreated p])
  /\ (~ (value_or v ver = ver /\ diags <> []) ->
      m_marks (d s') !! p = None
      /\ (forall editor, editor ∈ textEditorsForDocument doc ->
          extraSelections s' !! (editor, m_extraSelectionsId (d s)) = Some [])
      /\ emitted s' = emitted s).
Proof.
  intros Hdoc s'.
  assert (Hstored : m_diagnostics (d (setDiagnostics p diags v s)) !! p
                    = Some {| version := v; diagnostics := diags |})
    by apply lookup_insert_eq.
  assert (Hmarks : m_marks (d (setDiagnostics p diags v s)) !! p = None)
    by apply lookup_delete_eq.
  split.
  - intros Hver Hne. subst s'.
    rewrite (showDiagnostics_shown p ver _ doc Hdoc);
      rewrite ?Hstored; cbn [default from_option id version diagnostics]; [|done|done].
    rewrite Hmarks. cbn [default from_option id Marks_default enabled marks app].
    eexists. split; [cbn; apply lookup_insert_eq|].
    rewrite !map_map. cbn.
    split; [reflexivity|]. split.
    { intros Hlines. apply map_ext_Forall.
      eapply Forall_impl; [exact Hlines|]. intros dg Hdg. cbn. by apply int_add_1. }
    repeat split; try reflexivity.
    intros editor Hin. by apply LanguageClientSpec.setExtraSelectionsForDocument_editor.
  - intros Hno. subst s'.
    rewrite (showDiagnostics_not_shown p ver _ doc Hdoc);
      [|by rewrite Hstored].
    cbn [d m_marks extraSelections emitted]. rewrite Hmarks.
    split; [reflexivity|]. split; [|reflexivity].
    intros editor Hin. by apply LanguageClientSpec.setExtraSelectionsForDocument_editor.
Qed.

(** *** Selections of the editors *)

Lemma setExtraSelectionsForDocument_lookup doc (kind : Id) (selections : list ExtraSelection)
    (w : gmap (BaseTextEditor * Id) (list ExtraSelection)) (editor : BaseTextEditor) (k : Id) :
  setExtraSelectionsForDocument doc kind selections w !! (editor, k)
  = if bool_decide (editor ∈ textEditorsForDocument doc /\ k = kind)
    then Some selections else w !! (editor, k).
Proof.
  case_bool_decide as Hc.
  - destruct Hc as [Hin ->].
    by apply LanguageClientSpec.setExtraSelectionsForDocument_editor.
  - apply LanguageClientSpec.setExtraSelectionsForDocument_other.
    destruct (decide (editor ∈ textEditorsForDocument doc)) as [Hin|Hout]; [|by left].
    right. intros ->. by apply Hc.
Qed.

Lemma setExtraSelectionsForDocument_twice doc (kind : Id)
    (selections selections' : list ExtraSelection)
    (w : gmap (BaseTextEditor * Id) (list ExtraSelection)) :
  setExtraSelectionsForDocument doc kind selections
    (setExtraSelectionsForDocument doc kind selections' w)
  = setExtraSelectionsForDocument doc kind selections w.
Proof.
  apply map_eq. intros [editor k].
  rewrite !setExtraSelectionsForDocument_lookup. by case_bool_decide.
Qed.

Lemma setExtraSelectionsForDocument_commute doc doc' (kind : Id)
    (selections : list ExtraSelection)
    (w : gmap (BaseTextEditor * Id) (list ExtraSelection)) :
  setExtraSelectionsForDocument doc kind selections
    (setExtraSelectionsForDocument doc' kind selections w)
  = setExtraSelectionsForDocument doc' kind selections
      (setExtraSelectionsForDocument doc kind selections w).
Proof.
  apply map_eq. intros [editor k].
  rewrite !setExtraSelectionsForDocument_lookup. by repeat case_bool_decide.
Qed.

(** X2: with a document open for the file, the stored version absent or
    the one shown and the stored list not empty, showing twice without
    hiding in between appends the marks a second time and emits the signal
    again, while the editors' selections are those of the first call.
    With a document open and the version another one or the list empty,
    neither call makes a mark or emits, and the second call changes
    nothing. *)
Theorem showDiagnostics_twice p (ver : Z) s doc :
  textDocumentForFilePath p = Some doc ->
  let stored := default VersionedDiagnostics_default (m_diagnostics (d s) !! p) in
  let marksOf := fun t : State => marks (default Marks_default (m_marks (d t) !! p)) in
  let new :=
    map (fun dg => setActionsProvider [copyAction (message dg)]
                     (TextMark_ctor doc dg (m_client (d s))))
        (diagnostics stored) in
  let s1 := showDiagnostics p ver s in
  let s2 := showDiagnostics p ver s1 in
  (value_or (version stored) ver = ver -> diagnostics stored <> [] ->
   marksOf s1 = marksOf s ++ new
   /\ marksOf s2 = marksOf s ++ new ++ new
   /\ extraSelections s2 = extraSelections s1
   /\ emitted s2 = emitted s ++ [textMarkCreated p; textMarkCreated p])
  /\ (~ (value_or (version stored) ver = ver /\ diagnostics stored <> []) ->
      m_marks (d s1) = m_marks (d s)
      /\ emitted s1 = emitted s
      /\ s2 = s1).
Proof.
  intros Hdoc stored marksOf new s1 s2. split.
  - intros Hver Hne.
    assert (Hs1 := showDiagnostics_shown p ver s doc Hdoc Hver Hne). fold s1 in Hs1.
    assert (Hd1 : m_diagnostics (d s1) = m_diagnostics (d s)) by (by rewrite Hs1).
    assert (Hs2 := showDiagnostics_shown p ver s1 doc Hdoc). fold s2 in Hs2.
    rewrite Hd1 in Hs2. specialize (Hs2 Hver Hne).
    assert (Hm1 : marksOf s1 = marksOf s ++ new).
    { unfold marksOf at 1. rewrite Hs1. cbn. by rewrite lookup_insert_eq. }
    split; [exact Hm1|]. split; [|split].
    + unfold marksOf at 1. rewrite Hs2. cbn. rewrite lookup_insert_eq. cbn.
      fold (marksOf s1). rewrite Hm1, <- app_assoc.
      replace (m_client (d s1)) with (m_client (d s)) by (by rewrite Hs1).
      reflexivity.
    + rewrite Hs2. cbn. rewrite Hs1 at 2 3. cbn.
      replace (m_extraSelectionsId (d s1)) with (m_extraSelectionsId (d s))
        by (by rewrite Hs1).
      apply setExtraSelectionsForDocument_twice.
    + rewrite Hs2. cbn. rewrite Hs1. cbn. by rewrite <- app_assoc.
  - intros Hno.
    assert (Hs1 := showDiagnostics_not_shown p ver s doc Hdoc Hno). fold s1 in Hs1.
    assert (Hd1 : m_diagnostics (d s1) = m_diagnostics (d s)) by (by rewrite Hs1).
    assert (Hs2 := showDiagnostics_not_shown p ver s1 doc Hdoc). fold s2 in Hs2.
    rewrite Hd1 in Hs2. specialize (Hs2 Hno).
    split; [by rewrite Hs1|]. split; [by rewrite Hs1|].
    rewrite Hs2. rewrite Hs1 at 1 2 3 4 5 6. cbn.
    rewrite setExtraSelectionsForDocument_twice. by rewrite Hs1.
Qed.

(** X3: [hideDiagnostics] removes the marks of the file, empties the
    selections of the editors of its document and keeps the stored
    diagnostics.  A following [showDiagnostics] therefore rebuilds the
    marks: with a document open, the stored version absent or the one
    shown and the stored list not empty, the file has exactly one mark
    per stored diagnostic, enabled, whatever marks it had before; in
    every other case it has none. *)
Theorem hideDiagnostics_showDiagnostics p (ver : Z) s :
  let stored := default VersionedDiagnostics_default (m_diagnostics (d s) !! p) in
  let s1 := hideDiagnostics p s in
  let s2 := showDiagnostics p ver s1 in
  m_diagnostics (d s1) = m_diagnostics (d s)
  /\ m_marks (d s1) !! p = None
  /\ (forall doc editor,
        textDocumentForFilePath p = Some doc ->
        editor ∈ textEditorsForDocument doc ->
        extraSelections s1 !! (editor, m_extraSelectionsId (d s)) = Some [])
  /\ (forall doc,
        textDocumentForFilePath p = Some doc ->
        value_or (version stored) ver = ver ->
        diagnostics stored <> [] ->
        m_marks (d s2) !! p
        = Some {| enabled := true;
                  marks :=
                    map (fun dg => setActionsProvider [copyAction (message dg)]
                                     (TextMark_ctor doc dg (m_client (d s))))
                        (diagnostics stored) |})
  /\ (textDocumentForFilePath p = None
      \/ ~ (value_or (version stored) ver = ver /\ diagnostics stored <> []) ->
      m_marks (d s2) !! p = None).
Proof.
  intros stored s1 s2. split; [reflexivity|]. split; [apply lookup_delete_eq|].
  split; [|split].
  - intros doc editor Hdoc Hin. unfold s1, hideDiagnostics. cbn. rewrite Hdoc.
    by apply LanguageClientSpec.setExtraSelectionsForDocument_editor.
  - intros doc Hdoc Hver Hne. unfold s2.
    rewrite (showDiagnostics_shown p ver s1 doc Hdoc Hver Hne). cbn.
    rewrite lookup_insert_eq, lookup_delete_eq. reflexivity.
  - intros Hcase. unfold s2.
    destruct (textDocumentForFilePath p) as [doc|] eqn:Hdoc.
    + destruct Hcase as [Hcase|Hno]; [discriminate Hcase|].
      rewrite (showDiagnostics_not_shown p ver s1 doc Hdoc Hno). cbn.
      apply lookup_delete_eq.
    + rewrite (showDiagnostics_no_document p ver s1 Hdoc). apply lookup_delete_eq.
Qed.

(** X4: none of [hideDiagnostics], [setDiagnostics] and [showDiagnostics]
    touches the selections of another kind than the manager's, nor those
    of an editor that does not show the file. *)
Theorem extraSelections_frame p diags (v : option Z) (ver : Z) s
    (editor : BaseTextEditor) (kind : Id) :
  kind <> m_extraSelectionsId (d s)
  \/ (forall doc, textDocumentForFilePath p = Some doc ->
      editor ∉ textEditorsForDocument doc) ->
  extraSelections (hideDiagnostics p s) !! (editor, kind)
  = extraSelections s !! (editor, kind)
  /\ extraSelections (setDiagnostics p diags v s) !! (editor, kind)
     = extraSelections s !! (editor, kind)
  /\ extraSelections (showDiagnostics p ver s) !! (editor, kind)
     = extraSelections s !! (editor, kind).
Proof.
  intros Hout.
  assert (Hset : forall doc (selections : list ExtraSelection),
             textDocumentForFilePath p = Some doc ->
             setExtraSelectionsForDocument doc (m_extraSelectionsId (d s)) selections
               (extraSelections s) !! (editor, kind)
             = extraSelections s !! (editor, kind)).
  { intros doc selections Hdoc. rewrite setExtraSelectionsForDocument_lookup.
    rewrite bool_decide_eq_false_2; [reflexivity|].
    intros [Hin ->]. destruct Hout as [Hk|He]; [done|]. by apply (He doc). }
  assert (Hhide : extraSelections (hideDiagnostics p s) !! (editor, kind)
                  = extraSelections s !! (editor, kind)).
  { unfold hideDiagnostics. cbn.
    destruct (textDocumentForFilePath p) as [doc|] eqn:Hdoc; [by apply Hset|reflexivity]. }
  split; [exact Hhide|]. split; [exact Hhide|].
  unfold showDiagnostics.
  destruct (textDocumentForFilePath p) as [doc|] eqn:Hdoc; [|reflexivity].
  destruct (bool_decide _ && _).
  - destruct (fold_left _ _ _) as [selections ms]. cbn. by apply Hset.
  - cbn. by apply Hset.
Qed.

(** *** Hiding many files, clearing *)

Lemma hideDiagnostics_commute p q s :
  hideDiagnostics p (hideDiagnostics q s) = hideDiagnostics q (hideDiagnostics p s).
Proof.
  unfold hideDiagnostics. cbn. f_equal.
  - f_equal. apply delete_delete.
  - destruct (textDocumentForFilePath p) as [doc|], (textDocumentForFilePath q) as [doc'|];
      try reflexivity.
    apply setExtraSelectionsForDocument_commute.
Qed.

Lemma hideAll_cons (a : FilePath) (l : list FilePath) s :
  hideAll (a :: l) s = hideAll l (hideDiagnostics a s).
Proof. reflexivity. Qed.

Lemma hideAll_fields (paths : list FilePath) s :
  m_diagnostics (d (hideAll paths s)) = m_diagnostics (d s)
  /\ m_client (d (hideAll paths s)) = m_client (d s)
  /\ m_extraSelectionsId (d (hideAll paths s)) = m_extraSelectionsId (d s)
  /\ emitted (hideAll paths s) = emitted s.
Proof.
  revert s. induction paths as [|a l IH]; intros s; [done|].
  rewrite hideAll_cons. destruct (IH (hideDiagnostics a s)) as (-> & -> & -> & ->). done.
Qed.

Lemma hideAll_m_marks (paths : list FilePath) s q :
  m_marks (d (hideAll paths s)) !! q
  = if bool_decide (q ∈ paths) then None else m_marks (d s) !! q.
Proof.
  revert s. induction paths as [|a l IH]; intros s; [reflexivity|].
  rewrite hideAll_cons, IH. cbn.
  destruct (decide (q = a)) as [->|Hne].
  - rewrite lookup_delete_eq. rewrite (bool_decide_eq_true_2 (a ∈ a :: l)) by left.
    by case_bool_decide.
  - rewrite lookup_delete_ne by done.
    case_bool_decide as Hl.
    + rewrite bool_decide_eq_true_2; [done|by right].
    + rewrite bool_decide_eq_false_2; [done|].
      intros [?|?]%elem_of_cons; done.
Qed.

Lemma hideDiagnostics_selection_kept p s (key : BaseTextEditor * Id) :
  extraSelections s !! key = Some [] ->
  extraSelections (hideDiagnostics p s) !! key = Some [].
Proof.
  intros Hk. unfold hideDiagnostics. cbn.
  destruct (textDocumentForFilePath p) as [doc|]; [|done].
  destruct key as [editor k]. rewrite setExtraSelectionsForDocument_lookup.
  by case_bool_decide.
Qed.

Lemma hideAll_selection_kept (paths : list FilePath) s (key : BaseTextEditor * Id) :
  extraSelections s !! key = Some [] ->
  extraSelections (hideAll paths s) !! key = Some [].
Proof.
  revert s. induction paths as [|a l IH]; intros s Hk; [done|].
  rewrite hideAll_cons. apply IH. by apply hideDiagnostics_selection_kept.
Qed.

Lemma hideAll_selection_cleared (paths : list FilePath) s p doc (editor : BaseTextEditor) :
  p ∈ paths ->
  textDocumentForFilePath p = Some doc ->
  editor ∈ textEditorsForDocument doc ->
  extraSelections (hideAll paths s) !! (editor, m_extraSelectionsId (d s)) = Some [].
Proof.
  revert s. induction paths as [|a l IH]; intros s Hin Hdoc Hed.
  - by apply not_elem_of_nil in Hin.
  - rewrite hideAll_cons. apply elem_of_cons in Hin as [->|Hin].
    + apply hideAll_selection_kept. unfold hideDiagnostics. cbn. rewrite Hdoc.
      by apply LanguageClientSpec.setExtraSelectionsForDocument_editor.
    + by apply (IH (hideDiagnostics a s)).
Qed.

Lemma elem_of_keys (m : gmap FilePath VersionedDiagnostics) p :
  p ∈ map fst (map_to_list m) <-> is_Some (m !! p).
Proof.
  rewrite list_elem_of_In, in_map_iff. split.
  - intros ([k v] & Hk & Hin). cbn in Hk. subst k.
    apply list_elem_of_In, elem_of_map_to_list in Hin. by exists v.
  - intros [v Hv]. exists (p, v). split; [reflexivity|].
    by apply list_elem_of_In, elem_of_map_to_list.
Qed.

Lemma clearDiagnostics_assertion s :
  snd (clearDiagnostics s) = true
  <-> (forall q, is_Some (m_marks (d s) !! q) -> is_Some (m_diagnostics (d s) !! q)).
Proof.
  unfold clearDiagnostics. cbn [snd].
  rewrite bool_decide_eq_true, map_size_empty_iff, map_empty.
  split.
  - intros Hnone q Hq. specialize (Hnone q). rewrite hideAll_m_marks in Hnone.
    case_bool_decide as Hk; [by apply elem_of_keys|].
    rewrite Hnone in Hq. by destruct Hq.
  - intros Hinv q. rewrite hideAll_m_marks. case_bool_decide as Hk; [done|].
    destruct (m_marks (d s) !! q) eqn:Hq; [|done].
    exfalso. apply Hk, elem_of_keys, Hinv. by rewrite Hq.
Qed.

(** X5: [clearDiagnostics] leaves no stored diagnostics and no marks, empties
    the selections of every editor that shows a file with stored
    diagnostics, and emits nothing; afterwards no cursor meets a
    diagnostic. *)
Theorem clearDiagnostics_empties s :
  let s' := fst (clearDiagnostics s) in
  m_diagnostics (d s') = ∅
  /\ m_marks (d s') = ∅
  /\ emitted s' = emitted s
  /\ (forall p doc (editor : BaseTextEditor),
        is_Some (m_diagnostics (d s) !! p) ->
        textDocumentForFilePath p = Some doc ->
        editor ∈ textEditorsForDocument doc ->
        extraSelections s' !! (editor, m_extraSelectionsId (d s)) = Some [])
  /\ (forall p c, diagnosticsAt p c s' = []).
Proof.
  cbn. split; [reflexivity|]. split; [|split; [|split]].
  - case_bool_decide as Hsize; [|reflexivity]. by apply map_size_empty_iff.
  - apply hideAll_fields.
  - intros p doc editor Hp Hdoc Hed.
    apply (hideAll_selection_cleared _ s p doc); [|done|done]. by apply elem_of_keys.
  - intros p c. unfold diagnosticsAt. cbn. by rewrite lookup_empty.
Qed.

Lemma showDiagnostics_marks_lookup p (ver : Z) s q :
  is_Some (m_marks (d (showDiagnostics p ver s)) !! q) ->
  is_Some (m_marks (d s) !! q) \/ is_Some (m_diagnostics (d s) !! q).
Proof.
  destruct (textDocumentForFilePath p) as [doc|] eqn:Hdoc;
    [|rewrite showDiagnostics_no_document by done; by left].
  destruct (decide (value_or (version (default VersionedDiagnostics_default
                                         (m_diagnostics (d s) !! p))) ver = ver))
    as [Hver|Hver];
    [destruct (decide (diagnostics (default VersionedDiagnostics_default
                                      (m_diagnostics (d s) !! p)) = []))
       as [Hnil|Hne]|].
  - rewrite (showDiagnostics_not_shown p ver s doc Hdoc); [by left|].
    intros [_ Hne]. by apply Hne.
  - rewrite (showDiagnostics_shown p ver s doc Hdoc Hver Hne). cbn.
    destruct (decide (q = p)) as [->|Hqp].
    + intros _. right. destruct (m_diagnostics (d s) !! p); [done|].
      by destruct Hne.
    + rewrite lookup_insert_ne by done. by left.
  - rewrite (showDiagnostics_not_shown p ver s doc Hdoc); [by left|].
    intros [Hv _]. by apply Hver.
Qed.

Lemma reachable_marks_have_diagnostics (client : Client) s :
  reachable client s ->
  forall q, is_Some (m_marks (d s) !! q) -> is_Some (m_diagnostics (d s) !! q).
Proof.
  induction 1 as [|p diags v s Hr IH|p s Hr IH|p ver s Hr IH|s Hr IH]; intros q.
  - cbn. rewrite lookup_empty. by intros [? ?].
  - cbn. destruct (decide (q = p)) as [->|Hne].
    + rewrite lookup_delete_eq. by intros [? ?].
    + rewrite lookup_delete_ne, lookup_insert_ne by done. apply IH.
  - cbn. destruct (decide (q = p)) as [->|Hne].
    + rewrite lookup_delete_eq. by intros [? ?].
    + rewrite lookup_delete_ne by done. apply IH.
  - rewrite showDiagnostics_m_diagnostics. intros Hq.
    apply showDiagnostics_marks_lookup in Hq as [Hq|Hq]; [by apply IH|done].
  - cbn. case_bool_decide as Hsize.
    + apply map_size_empty_iff in Hsize. rewrite Hsize, lookup_empty. by intros [? ?].
    + rewrite lookup_empty. by intros [? ?].
Qed.

(** X6: however the manager is driven through [setDiagnostics],
    [hideDiagnostics], [showDiagnostics] and [clearDiagnostics], only
    files with stored diagnostics have marks, and so the assertion in
    [clearDiagnostics] that hiding those files leaves no marks holds. *)
Theorem clearDiagnostics_assertion_holds (client : Client) s :
  reachable client s ->
  (forall q, is_Some (m_marks (d s) !! q) -> is_Some (m_diagnostics (d s) !! q))
  /\ snd (clearDiagnostics s) = true.
Proof.
  intros Hr. pose proof (reachable_marks_have_diagnostics client s Hr) as Hinv.
  split; [exact Hinv|]. by apply clearDiagnostics_assertion.
Qed.

(** *** Lookups after [setDiagnostics] *)

(** X7: what [setDiagnostics] stored is what [diagnosticsAt] searches: with no
    version, or with the client's document version, the diagnostics of the
    given list that overlap the cursor; with any other version, none.
    Other files answer as before. *)
Theorem diagnosticsAt_setDiagnostics p diags (v : option Z) c s :
  let s' := setDiagnostics p diags v s in
  let revision := documentVersion (m_client (d s)) p in
  (v = None \/ v = Some revision ->
   diagnosticsAt p c s'
   = List.filter (fun dg => overlaps (range dg) (Range_fromCursor c)) diags)
  /\ (forall n, v = Some n -> n <> revision -> diagnosticsAt p c s' = [])
  /\ (forall q, q <> p -> diagnosticsAt q c s' = diagnosticsAt q c s).
Proof.
  cbn. unfold diagnosticsAt. cbn. split; [|split].
  - intros Hv. rewrite lookup_insert_eq. cbn.
    rewrite bool_decide_eq_true_2 by (destruct Hv as [->| ->]; reflexivity).
    reflexivity.
  - intros n -> Hn. rewrite lookup_insert_eq. cbn.
    rewrite bool_decide_eq_false_2 by congruence. reflexivity.
  - intros q Hq. rewrite lookup_insert_ne by done. reflexivity.
Qed.

(** X8: whatever [diagnosticsAt] returns for a file is a diagnostic that
    [hasDiagnostic] finds for that file with any open document, and
    [hasDiagnostics] holds of a document of that file. *)
Theorem diagnosticsAt_hasDiagnostic (fp : TextDocument -> FilePath) p c s doc
    (dg : Diagnostic) :
  dg ∈ diagnosticsAt p c s ->
  hasDiagnostic p (Some doc) dg s = true
  /\ (fp doc = p -> hasDiagnostics fp doc s = true).
Proof.
  unfold diagnosticsAt, hasDiagnostic, hasDiagnostics.
  intros Hin. split; [|intros ->];
    destruct (m_diagnostics (d s) !! _) as [it|]; try by apply not_elem_of_nil in Hin.
  - destruct (negb _); [by apply not_elem_of_nil in Hin|].
    apply bool_decide_eq_true_2. unfold filtered in Hin.
    apply list_elem_of_In, filter_In in Hin as [Hin _]. by apply list_elem_of_In.
  - destruct (negb _); [by apply not_elem_of_nil in Hin|].
    unfold filtered in Hin.
    apply list_elem_of_In, filter_In in Hin as [Hin _].
    destruct (diagnostics it); [destruct Hin|reflexivity].
Qed.

(** A null document has no diagnostic, and a diagnostic that
    [hasDiagnostic] finds is one of the stored list of the file. *)
Theorem hasDiagnostic_stored p (doc : option TextDocument) (dg : Diagnostic) s :
  hasDiagnostic p doc dg s = true ->
  is_Some doc
  /\ exists it, m_diagnostics (d s) !! p = Some it
               /\ dg ∈ diagnostics it
               /\ (version it = None
                   \/ version it = Some (documentVersion (m_client (d s)) p)).
Proof.
  unfold hasDiagnostic. destruct doc as [doc|]; [|discriminate].
  destruct (m_diagnostics (d s) !! p) as [it|]; [|discriminate].
  case_bool_decide as Hrev; cbn [negb]; [|discriminate].
  intros Hin%bool_decide_eq_true_1. split; [done|].
  exists it. split; [done|]. split; [done|].
  destruct (version it) as [n|]; [right|by left]. cbn in Hrev. by rewrite Hrev.
Qed.

(** *** Disabling the marks of a document *)

Section Documents.
Variable fp : TextDocument -> FilePath.

Lemma disableDiagnostics_after (document : TextDocument) s :
  enabled (default Marks_default
             (m_marks (d (disableDiagnostics fp document s)) !! fp document)) = false
  /\ m_diagnostics (d (disableDiagnostics fp document s)) = m_diagnostics (d s).
Proof.
  split; [|reflexivity]. unfold disableDiagnostics. cbn. rewrite lookup_insert_eq.
  destruct (m_marks (d s) !! fp document) as [[[|] ms]|]; reflexivity.
Qed.

(** X9: [disableDiagnostics] greys every mark of the document's file, keeps
    their number, lines, annotations and icons, touches neither the stored
    diagnostics nor other files, and a second call changes nothing. *)
Theorem disableDiagnostics_greys (document : TextDocument) s :
  let before := default Marks_default (m_marks (d s) !! fp document) in
  let s' := disableDiagnostics fp document s in
  let after := default Marks_default (m_marks (d s') !! fp document) in
  enabled after = false
  /\ (enabled before = true ->
      Forall (fun m => mark_color m = Some IconsDisabledColor) (marks after))
  /\ (enabled before = false -> marks after = marks before)
  /\ map mark_lineNumber (marks after) = map mark_lineNumber (marks before)
  /\ map mark_lineAnnotation (marks after) = map mark_lineAnnotation (marks before)
  /\ map mark_icon (marks after) = map mark_icon (marks before)
  /\ disableDiagnostics fp document s' = s'
  /\ m_diagnostics (d s') = m_diagnostics (d s)
  /\ (forall q, q <> fp document -> m_marks (d s') !! q = m_marks (d s) !! q).
Proof.
  intros before s' after.
  assert (Hafter : after
                   = if negb (enabled before) then before
                     else {| enabled := false;
                             marks := map (setColor IconsDisabledColor) (marks before) |}).
  { unfold after, s', disableDiagnostics. cbn. by rewrite lookup_insert_eq. }
  assert (Hoff : enabled after = false).
  { rewrite Hafter. by destruct (enabled before) eqn:He. }
  split; [exact Hoff|].
  repeat split.
  - intros He. rewrite Hafter, He. cbn. apply Forall_forall.
    intros m (m0 & -> & _)%list_elem_of_fmap. reflexivity.
  - intros He. by rewrite Hafter, He.
  - rewrite Hafter. destruct (enabled before); cbn; [|done]. by rewrite map_map.
  - rewrite Hafter. destruct (enabled before); cbn; [|done]. by rewrite map_map.
  - rewrite Hafter. destruct (enabled before); cbn; [|done]. by rewrite map_map.
  - unfold disableDiagnostics at 1. fold after. rewrite Hoff. cbn [negb].
    unfold s', disableDiagnostics. cbn. f_equal. f_equal.
    apply insert_id. cbn in Hafter. unfold after, s', disableDiagnostics. cbn.
    rewrite lookup_insert_eq. reflexivity.
  - intros q Hq. unfold s', disableDiagnostics. cbn. by rewrite lookup_insert_ne.
Qed.

(** X10: marks that [showDiagnostics] adds to a file whose marks are disabled
    keep the colour of their severity, the file stays disabled, and so a
    further [disableDiagnostics] does not grey them. *)
Theorem showDiagnostics_while_disabled (document : TextDocument) (ver : Z) s doc :
  let p := fp document in
  let stored := default VersionedDiagnostics_default (m_diagnostics (d s) !! p) in
  textDocumentForFilePath p = Some doc ->
  value_or (version stored) ver = ver ->
  diagnostics stored <> [] ->
  let s1 := disableDiagnostics fp document s in
  let s2 := showDiagnostics p ver s1 in
  let marksOf := fun t : State => default Marks_default (m_marks (d t) !! p) in
  enabled (marksOf s2) = false
  /\ disableDiagnostics fp document s2 = s2
  /\ exists new,
       marks (marksOf s2) = marks (marksOf s1) ++ new
       /\ length new = length (diagnostics stored)
       /\ Forall (fun m => mark_color m = Some CodeModel_Error_TextMarkColor
                          \/ mark_color m = Some CodeModel_Warning_TextMarkColor) new.
Proof.
  intros p stored Hdoc Hver Hne s1 s2 marksOf.
  destruct (disableDiagnostics_after document s) as [Hoff Hd].
  fold s1 p in Hoff, Hd.
  assert (Hs2 := showDiagnostics_shown p ver s1 doc Hdoc). fold s2 in Hs2.
  rewrite Hd in Hs2. specialize (Hs2 Hver Hne). rewrite Hoff in Hs2.
  assert (Hm2 : marksOf s2
                = {| enabled := false;
                     marks := marks (marksOf s1)
                              ++ map (fun dg => setActionsProvider [copyAction (message dg)]
                                                  (TextMark_ctor doc dg (m_client (d s1))))
                                     (diagnostics stored) |}).
  { unfold marksOf at 1. rewrite Hs2. cbn. by rewrite lookup_insert_eq. }
  split; [by rewrite Hm2|]. split.
  - unfold disableDiagnostics. fold p. fold (marksOf s2). rewrite Hm2. cbn [enabled negb].
    destruct s2 as [[dg2 mk2 cl2 id2] w2 e2]. cbn. f_equal. f_equal.
    apply insert_id. unfold marksOf in Hm2. cbn in Hm2.
    destruct (mk2 !! p) as [fm|] eqn:Hfm; [cbn in Hm2; by rewrite Hm2|].
    cbn in Hm2. discriminate Hm2.
  - eexists. split; [by rewrite Hm2|]. split; [by rewrite length_map|].
    apply Forall_forall. intros m (dg & -> & _)%list_elem_of_fmap. cbn.
    destruct (bool_decide _); [by left|by right].
Qed.

(** X11: a document whose file has no stored diagnostics still gets an entry
    of marks from [disableDiagnostics]; [clearDiagnostics] does not hide
    that file, so its assertion that no marks are left fails. *)
Theorem clearDiagnostics_after_disable (document : TextDocument) s :
  m_diagnostics (d s) !! fp document = None ->
  snd (clearDiagnostics (disableDiagnostics fp document s)) = false
  /\ m_marks (d (fst (clearDiagnostics (disableDiagnostics fp document s)))) = ∅.
Proof.
  intros Hnone. split.
  - apply not_true_is_false. rewrite clearDiagnostics_assertion.
    intros Hinv. specialize (Hinv (fp document)).
    unfold disableDiagnostics in Hinv. cbn in Hinv.
    rewrite lookup_insert_eq, Hnone in Hinv. destruct Hinv as [? ?]; done.
  - cbn. case_bool_decide as Hsize; [|reflexivity]. by apply map_size_empty_iff.
Qed.

(** X12: what the manager answers about the stored diagnostics does not depend
    on what is displayed: showing, hiding and disabling change the answer
    of none of [diagnosticsAt], [hasDiagnostic] and [hasDiagnostics]. *)
Theorem queries_ignore_display (document doc : TextDocument) p q (ver : Z) c
    (odoc : option TextDocument) (dg : Diagnostic) s :
  (diagnosticsAt p c (showDiagnostics q ver s) = diagnosticsAt p c s
   /\ diagnosticsAt p c (hideDiagnostics q s) = diagnosticsAt p c s
   /\ diagnosticsAt p c (disableDiagnostics fp document s) = diagnosticsAt p c s)
  /\ (hasDiagnostic p odoc dg (showDiagnostics q ver s) = hasDiagnostic p odoc dg s
      /\ hasDiagnostic p odoc dg (hideDiagnostics q s) = hasDiagnostic p odoc dg s
      /\ hasDiagnostic p odoc dg (disableDiagnostics fp document s)
         = hasDiagnostic p odoc dg s)
  /\ (hasDiagnostics fp doc (showDiagnostics q ver s) = hasDiagnostics fp doc s
      /\ hasDiagnostics fp doc (hideDiagnostics q s) = hasDiagnostics fp doc s
      /\ hasDiagnostics fp doc (disableDiagnostics fp document s)
         = hasDiagnostics fp doc s).
Proof.
  unfold diagnosticsAt, hasDiagnostic, hasDiagnostics.
  rewrite !showDiagnostics_m_diagnostics.
  rewrite !(proj1 (showDiagnostics_m_client q ver s)).
  repeat split.
Qed.

End Documents.

(** *** The selection kind *)

(** X13: [setExtraSelectionsId] is meant to be called before any diagnostics
    are handled, and its check holds exactly then.  Called later with
    another kind, it leaves the selections of the old kind behind:
    [hideDiagnostics] then empties the new kind only. *)
Theorem setExtraSelectionsId_late (extraSelectionsId : Id) p s doc
    (editor : BaseTextEditor) :
  extraSelectionsId <> m_extraSelectionsId (d s) ->
  textDocumentForFilePath p = Some doc ->
  editor ∈ textEditorsForDocument doc ->
  let s' := hideDiagnostics p (fst (setExtraSelectionsId extraSelectionsId s)) in
  extraSelections s' !! (editor, m_extraSelectionsId (d s))
  = extraSelections s !! (editor, m_extraSelectionsId (d s))
  /\ extraSelections s' !! (editor, extraSelectionsId) = Some []
  /\ (snd (setExtraSelectionsId extraSelectionsId s) = true <-> m_diagnostics (d s) = ∅).
Proof.
  intros Hne Hdoc Hin. cbn. rewrite Hdoc. split; [|split].
  - rewrite setExtraSelectionsForDocument_lookup.
    rewrite bool_decide_eq_false_2; [reflexivity|]. intros [_ Heq]. by apply Hne.
  - by apply LanguageClientSpec.setExtraSelectionsForDocument_editor.
  - rewrite bool_decide_eq_true. apply map_size_empty_iff.
Qed.

(** *** The order of hiding *)

(** X14: hiding a file twice is hiding it once, and hiding several files gives
    the same state in whatever order they are taken, so that the order in
    which [clearDiagnostics] walks the files does not matter. *)
Theorem hideAll_order (paths paths' : list FilePath) p s :
  hideDiagnostics p (hideDiagnostics p s) = hideDiagnostics p s
  /\ (paths ≡ₚ paths' -> hideAll paths s = hideAll paths' s).
Proof.
  split.
  - unfold hideDiagnostics. cbn. f_equal.
    + f_equal. apply delete_delete_eq.
    + destruct (textDocumentForFilePath p) as [doc|]; [|reflexivity].
      apply setExtraSelectionsForDocument_twice.
  - intros Hperm. revert s.
    induction Hperm as [|a l l' Hperm IH|a b l|l l' l'' Hp1 IH1 Hp2 IH2]; intros s.
    + reflexivity.
    + rewrite !hideAll_cons. apply IH.
    + rewrite !hideAll_cons. by rewrite hideDiagnostics_commute.
    + by rewrite IH1, IH2.
Qed.

End Manager.

(** *** On the example host *)

Lemma setDiagnostics_showDiagnostics_witness :
  let s' := showDiagnostics (H := Demo.clientHost) "main.cpp" 7
              (setDiagnostics (H := Demo.clientHost) "main.cpp" [Demo.unusedVariable]
                              (Some 7) Demo.manager) in
  let stale := showDiagnostics (H := Demo.clientHost) "main.cpp" 8
                 (setDiagnostics (H := Demo.clientHost) "main.cpp" [Demo.unusedVariable]
                                 (Some 7) Demo.manager) in
  textDocumentForFilePath (Host := Demo.clientHost) "main.cpp" = Some ("main.cpp" : string)
  /\ (exists fileMarks,
        m_marks (d s') !! ("main.cpp" : string)
        = Some {| enabled := true; marks := fileMarks |}
        /\ map mark_lineNumber fileMarks = [5]
        /\ map mark_lineAnnotation fileMarks = ["unused variable"])
  /\ m_marks (d stale) !! ("main.cpp" : string) = None.
Proof.
  cbv zeta. split; [reflexivity|].
  destruct (setDiagnostics_showDiagnostics (H := Demo.clientHost) "main.cpp"
              [Demo.unusedVariable] (Some 7) 7 Demo.manager "main.cpp" eq_refl)
    as [Hshown _].
  destruct (setDiagnostics_showDiagnostics (H := Demo.clientHost) "main.cpp"
              [Demo.unusedVariable] (Some 7) 8 Demo.manager "main.cpp" eq_refl)
    as [_ Hstale].
  split.
  - destruct Hshown as (fileMarks & Hm & Hline & _ & Hann & _);
      [reflexivity|discriminate|].
    exists fileMarks. split; [exact Hm|]. split; [exact Hline|exact Hann].
  - apply Hstale. intros [Hver _]. discriminate Hver.
Defined.

Lemma showDiagnostics_twice_witness :
  let s2 := showDiagnostics (H := Demo.clientHost) "main.cpp" 3
              (showDiagnostics (H := Demo.clientHost) "main.cpp" 3 Demo.manager) in
  textDocumentForFilePath (Host := Demo.clientHost) "main.cpp" = Some ("main.cpp" : string)
  /\ length (marks (default (Marks_default (H := Demo.clientHost))
                      (m_marks (d s2) !! ("main.cpp" : string)))) = 4%nat
  /\ emitted s2 = [textMarkCreated (H := Demo.clientHost) "main.cpp";
                   textMarkCreated (H := Demo.clientHost) "main.cpp"]
  /\ emitted (showDiagnostics (H := Demo.clientHost) "main.cpp" 2 Demo.manager) = [].
Proof.
  cbv zeta. split; [reflexivity|].
  destruct (showDiagnostics_twice (H := Demo.clientHost) "main.cpp" 3 Demo.manager
              "main.cpp" eq_refl) as [Hshown _].
  destruct (showDiagnostics_twice (H := Demo.clientHost) "main.cpp" 2 Demo.manager
              "main.cpp" eq_refl) as [_ Hstale].
  destruct Hshown as (_ & Hm & _ & He).
  - vm_compute. reflexivity.
  - vm_compute. discriminate.
  - split; [|split; [exact He|]].
    + etransitivity; [exact (f_equal length Hm)|]. vm_compute. reflexivity.
    + destruct Hstale as (_ & He0 & _); [|exact He0].
      intros [Hver _]. vm_compute in Hver. discriminate Hver.
Defined.

Lemma hideDiagnostics_showDiagnostics_witness :
  let shown := showDiagnostics (H := Demo.clientHost) "main.cpp" 3 Demo.manager in
  let s1 := hideDiagnostics (H := Demo.clientHost) "main.cpp" shown in
  let s2 := showDiagnostics (H := Demo.clientHost) "main.cpp" 3 s1 in
  m_marks (d s1) !! ("main.cpp" : string) = None
  /\ m_diagnostics (d s1) !! ("main.cpp" : string)
     = Some {| version := Some 3;
               diagnostics := [Demo.unusedVariable; Demo.missingSemicolon] |}
  /\ exists fileMarks,
       m_marks (d s2) !! ("main.cpp" : string)
       = Some {| enabled := true; marks := fileMarks |}
       /\ length fileMarks = 2%nat.
Proof.
  cbv zeta.
  destruct (hideDiagnostics_showDiagnostics (H := Demo.clientHost) "main.cpp" 3
              (showDiagnostics (H := Demo.clientHost) "main.cpp" 3 Demo.manager))
    as (Hd & Hm & _ & Hrebuilt & _).
  split; [exact Hm|]. split; [rewrite Hd; vm_compute; reflexivity|].
  eexists. split.
  - apply (Hrebuilt "main.cpp"); [reflexivity|vm_compute; reflexivity|].
    vm_compute. discriminate.
  - vm_compute. reflexivity.
Defined.

(** The manager's selection kind was changed after "main.cpp" was shown:
    hiding the file now empties the new kind and leaves the two
    selections of the old kind where they are. *)
Lemma extraSelections_frame_witness :
  let shown := showDiagnostics (H := Demo.clientHost) "main.cpp" 3 Demo.manager in
  let s := fst (setExtraSelectionsId (H := Demo.clientHost) "Other" shown) in
  let s' := hideDiagnostics (H := Demo.clientHost) "main.cpp" s in
  ("CodeWarningsSelection" : string) <> m_extraSelectionsId (d s)
  /\ textDocumentForFilePath (Host := Demo.clientHost) "main.cpp"
     = Some ("main.cpp" : string)
  /\ (0%nat : nat) ∈ textEditorsForDocument (Host := Demo.clientHost) ("main.cpp" : string)
  /\ extraSelections s' !! (0%nat, "CodeWarningsSelection" : string)
     = extraSelections s !! (0%nat, "CodeWarningsSelection" : string)
  /\ length (default [] (extraSelections s !! (0%nat, "CodeWarningsSelection" : string)))
     = 2%nat
  /\ extraSelections s !! (0%nat, "Other" : string) = None
  /\ extraSelections s' !! (0%nat, "Other" : string) = Some [].
Proof.
  cbv zeta.
  assert (Hkind : ("CodeWarningsSelection" : string)
                  <> m_extraSelectionsId
                       (d (fst (setExtraSelectionsId (H := Demo.clientHost) "Other"
                                  (showDiagnostics (H := Demo.clientHost) "main.cpp" 3
                                     Demo.manager)))))
    by discriminate.
  split; [exact Hkind|]. split; [reflexivity|]. split; [apply list_elem_of_here|].
  split.
  - apply (extraSelections_frame (H := Demo.clientHost) "main.cpp" [] None 3
             (fst (setExtraSelectionsId (H := Demo.clientHost) "Other"
                     (showDiagnostics (H := Demo.clientHost) "main.cpp" 3 Demo.manager)))
             0%nat "CodeWarningsSelection").
    left. exact Hkind.
  - split; [vm_compute; reflexivity|]. split; vm_compute; reflexivity.
Defined.

Lemma clearDiagnostics_assertion_holds_witness :
  reachable Demo.client
    (showDiagnostics (H := Demo.clientHost) "main.cpp" 3 Demo.manager)
  /\ snd (clearDiagnostics (H := Demo.clientHost)
            (showDiagnostics (H := Demo.clientHost) "main.cpp" 3 Demo.manager)) = true.
Proof.
  assert (Hr : reachable Demo.client
                 (showDiagnostics (H := Demo.clientHost) "main.cpp" 3 Demo.manager)).
  { apply reachable_showDiagnostics. unfold Demo.manager.
    apply reachable_setDiagnostics, reachable_setDiagnostics, reachable_ctor. }
  split; [exact Hr|].
  apply (clearDiagnostics_assertion_holds (H := Demo.clientHost) Demo.client _ Hr).
Defined.

Lemma diagnosticsAt_hasDiagnostic_witness :
  let c := setPosition (H := Demo.clientHost) 720 MoveAnchor
             (QTextCursor_on (H := Demo.clientHost) ("main.cpp" : string)) in
  Demo.missingSemicolon ∈ diagnosticsAt (H := Demo.clientHost) "main.cpp" c Demo.manager
  /\ hasDiagnostic (H := Demo.clientHost) "main.cpp" (Some ("main.cpp" : string))
                    Demo.missingSemicolon Demo.manager = true.
Proof.
  cbv zeta.
  assert (Hin : Demo.missingSemicolon
                ∈ diagnosticsAt (H := Demo.clientHost) "main.cpp"
                    (setPosition (H := Demo.clientHost) 720 MoveAnchor
                       (QTextCursor_on (H := Demo.clientHost) ("main.cpp" : string)))
                    Demo.manager).
  { replace (diagnosticsAt _ _ _) with [Demo.missingSemicolon]
      by (vm_compute; reflexivity).
    apply list_elem_of_here. }
  split; [exact Hin|].
  exact (proj1 (diagnosticsAt_hasDiagnostic (H := Demo.clientHost)
                  (fun doc : string => doc) "main.cpp" _ Demo.manager "main.cpp"
                  Demo.missingSemicolon Hin)).
Defined.

Lemma hasDiagnostic_stored_witness :
  hasDiagnostic (H := Demo.clientHost) "util.cpp" (Some ("util.cpp" : string))
                Demo.unusedVariable Demo.manager = true
  /\ exists it, m_diagnostics (d Demo.manager) !! ("util.cpp" : string) = Some it
               /\ Demo.unusedVariable ∈ diagnostics it.
Proof.
  assert (Hhas : hasDiagnostic (H := Demo.clientHost) "util.cpp" (Some ("util.cpp" : string))
                               Demo.unusedVariable Demo.manager = true)
    by (vm_compute; reflexivity).
  split; [exact Hhas|].
  destruct (hasDiagnostic_stored (H := Demo.clientHost) "util.cpp" _ _ _ Hhas)
    as (_ & it & Hit & Hin & _).
  exists it. split; [exact Hit|exact Hin].
Defined.

Lemma showDiagnostics_while_disabled_witness :
  let s2 := showDiagnostics (H := Demo.clientHost) "main.cpp" 3
              (disableDiagnostics (H := Demo.clientHost) (fun doc : string => doc)
                 "main.cpp" Demo.manager) in
  enabled (default (Marks_default (H := Demo.clientHost)) (m_marks (d s2) !! ("main.cpp" : string))) = false
  /\ map mark_color (marks (default (Marks_default (H := Demo.clientHost)) (m_marks (d s2) !! ("main.cpp" : string))))
     = [Some CodeModel_Warning_TextMarkColor; Some CodeModel_Error_TextMarkColor].
Proof.
  cbv zeta.
  destruct (showDiagnostics_while_disabled (H := Demo.clientHost)
              (fun doc : string => doc) "main.cpp" 3 Demo.manager "main.cpp")
    as (Hoff & _).
  - reflexivity.
  - vm_compute. reflexivity.
  - vm_compute. discriminate.
  - split; [exact Hoff|]. vm_compute. reflexivity.
Defined.

Lemma clearDiagnostics_after_disable_witness :
  m_diagnostics (d Demo.manager) !! ("other.cpp" : string) = None
  /\ snd (clearDiagnostics (H := Demo.clientHost)
            (disableDiagnostics (H := Demo.clientHost) (fun doc : string => doc)
               "other.cpp" Demo.manager)) = false.
Proof.
  assert (Hnone : m_diagnostics (d Demo.manager) !! ("other.cpp" : string) = None)
    by (vm_compute; reflexivity).
  split; [exact Hnone|].
  apply (clearDiagnostics_after_disable (H := Demo.clientHost) (fun doc : string => doc)
           "other.cpp" Demo.manager Hnone).
Defined.

Lemma setExtraSelectionsId_late_witness :
  let s := showDiagnostics (H := Demo.clientHost) "main.cpp" 3 Demo.manager in
  let s' := hideDiagnostics (H := Demo.clientHost) "main.cpp"
              (fst (setExtraSelectionsId (H := Demo.clientHost) "Other" s)) in
  ("Other" : string) <> m_extraSelectionsId (d s)
  /\ extraSelections s' !! (0%nat, "CodeWarningsSelection" : string)
     = extraSelections s !! (0%nat, "CodeWarningsSelection" : string).
Proof.
  cbv zeta. split; [discriminate|].
  destruct (setExtraSelectionsId_late (H := Demo.clientHost) "Other" "main.cpp"
              (showDiagnostics (H := Demo.clientHost) "main.cpp" 3 Demo.manager)
              "main.cpp" 0%nat) as (Hold & _).
  - discriminate.
  - reflexivity.
  - apply list_elem_of_here.
  - exact Hold.
Defined.

Lemma clearDiagnostics_empties_witness :
  let s := showDiagnostics (H := Demo.clientHost) "main.cpp" 3 Demo.manager in
  is_Some (m_diagnostics (d s) !! ("main.cpp" : string))
  /\ extraSelections (fst (clearDiagnostics (H := Demo.clientHost) s))
       !! (1%nat, "CodeWarningsSelection" : string) = Some [].
Proof.
  cbv zeta.
  assert (Hstored : is_Some (m_diagnostics
                               (d (showDiagnostics (H := Demo.clientHost) "main.cpp" 3
                                     Demo.manager)) !! ("main.cpp" : string))).
  { rewrite showDiagnostics_m_diagnostics. eexists. vm_compute. reflexivity. }
  split; [exact Hstored|].
  destruct (clearDiagnostics_empties (H := Demo.clientHost)
              (showDiagnostics (H := Demo.clientHost) "main.cpp" 3 Demo.manager))
    as (_ & _ & _ & Hcleared & _).
  apply (Hcleared "main.cpp" "main.cpp" 1%nat Hstored eq_refl).
  apply list_elem_of_further, list_elem_of_here.
Defined.

Lemma diagnosticsAt_setDiagnostics_witness :
  let c := setPosition (H := Demo.clientHost) 408 MoveAnchor
             (QTextCursor_on (H := Demo.clientHost) ("main.cpp" : string)) in
  diagnosticsAt (H := Demo.clientHost) "main.cpp" c
    (setDiagnostics (H := Demo.clientHost) "main.cpp" [Demo.unusedVariable] (Some 2)
                    Demo.manager)
  = []
  /\ diagnosticsAt (H := Demo.clientHost) "main.cpp" c
       (setDiagnostics (H := Demo.clientHost) "main.cpp" [Demo.unusedVariable] None
                       Demo.manager)
     = [Demo.unusedVariable].
Proof.
  cbv zeta. split.
  - destruct (diagnosticsAt_setDiagnostics (H := Demo.clientHost) "main.cpp"
                [Demo.unusedVariable] (Some 2)
                (setPosition (H := Demo.clientHost) 408 MoveAnchor
                   (QTextCursor_on (H := Demo.clientHost) ("main.cpp" : string)))
                Demo.manager) as (_ & Hstale & _).
    apply (Hstale 2); [reflexivity|discriminate].
  - destruct (diagnosticsAt_setDiagnostics (H := Demo.clientHost) "main.cpp"
                [Demo.unusedVariable] None
                (setPosition (H := Demo.clientHost) 408 MoveAnchor
                   (QTextCursor_on (H := Demo.clientHost) ("main.cpp" : string)))
                Demo.manager) as (Hfresh & _).
    etransitivity; [apply Hfresh; by left|]. vm_compute. reflexivity.
Defined.

Lemma hideAll_order_witness :
  hideAll (H := Demo.clientHost) ["main.cpp"; "util.cpp"] Demo.manager
  = hideAll (H := Demo.clientHost) ["util.cpp"; "main.cpp"] Demo.manager.
Proof.
  apply (hideAll_order (H := Demo.clientHost) ["main.cpp"; "util.cpp"]
           ["util.cpp"; "main.cpp"] "main.cpp" Demo.manager).
  apply perm_swap.
Defined.

Lemma disableDiagnostics_greys_witness :
  let s := showDiagnostics (H := Demo.clientHost) "main.cpp" 3 Demo.manager in
  let s' := disableDiagnostics (H := Demo.clientHost) (fun doc : string => doc)
              "main.cpp" s in
  enabled (default (Marks_default (H := Demo.clientHost))
             (m_marks (d s) !! ("main.cpp" : string))) = true
  /\ Forall (fun m => mark_color m = Some IconsDisabledColor)
       (marks (default (Marks_default (H := Demo.clientHost))
                 (m_marks (d s') !! ("main.cpp" : string)))).
Proof.
  cbv zeta.
  assert (Hon : enabled (default (Marks_default (H := Demo.clientHost))
                           (m_marks (d (showDiagnostics (H := Demo.clientHost)
                                          "main.cpp" 3 Demo.manager))
                            !! ("main.cpp" : string))) = true)
    by (vm_compute; reflexivity).
  split; [exact Hon|].
  destruct (disableDiagnostics_greys (H := Demo.clientHost) (fun doc : string => doc)
              "main.cpp"
              (showDiagnostics (H := Demo.clientHost) "main.cpp" 3 Demo.manager))
    as (_ & Hgrey & _).
  exact (Hgrey Hon).
Defined.

End LanguageClientMore.

(* ===================================================================== *)
(** * Further properties of the clangd settings *)
(* ===================================================================== *)

Module CppEditorMore.
Import CppEditor.

Section Settings.
Context `{H : Host}.

Implicit Types (data this m_data : Data) (map : gmap string QVariant) (g : FilePath).
Implicit Types (l : list string) (name : string).

(** *** Sessions *)

Lemma Data_set_sessionsWithOneClangd_same m_data :
  Data_set_sessionsWithOneClangd (sessionsWithOneClangd m_data) m_data = m_data.
Proof. by destruct m_data. Qed.

Lemma removeOne_absent name l : name ∉ l -> removeOne name l = l.
Proof.
  induction l as [|x l IH]; intros Hout; [reflexivity|]. cbn.
  apply not_elem_of_cons in Hout as [Hne Hout].
  rewrite decide_False by done. by rewrite IH.
Qed.

Lemma removeOne_length name l :
  name ∈ l -> S (length (removeOne name l)) = length l.
Proof.
  induction l as [|x l IH]; intros Hin; [by apply not_elem_of_nil in Hin|]. cbn.
  destruct (decide (x = name)) as [->|Hne]; [reflexivity|]. cbn. f_equal.
  apply IH. apply elem_of_cons in Hin as [->|Hin]; done.
Qed.

Lemma elem_of_removeOne_ne name other l :
  other <> name -> other ∈ removeOne name l <-> other ∈ l.
Proof.
  intros Hne. induction l as [|x l IH]; [reflexivity|]. cbn.
  destruct (decide (x = name)) as [->|Hx].
  - rewrite elem_of_cons. split; [by right|]. intros [?|?]; done.
  - rewrite !elem_of_cons, IH. reflexivity.
Qed.

Lemma elem_of_removeOne name other l : other ∈ removeOne name l -> other ∈ l.
Proof.
  induction l as [|x l IH]; [done|]. cbn.
  destruct (decide (x = name)) as [->|Hx]; rewrite ?elem_of_cons.
  - by right.
  - intros [?|?]; [by left|right; by apply IH].
Qed.

Lemma removeOne_NoDup name l :
  NoDup l -> NoDup (removeOne name l) /\ name ∉ removeOne name l.
Proof.
  induction 1 as [|x l Hx Hl IH]; cbn; [split; [constructor|apply not_elem_of_nil]|].
  destruct (decide (x = name)) as [->|Hne]; [done|].
  destruct IH as [IH1 IH2]. split.
  - constructor; [|done]. intros Hin. by apply Hx, (elem_of_removeOne name).
  - apply not_elem_of_cons. split; [congruence|done].
Qed.

Lemma indexOf_spec name l :
((name ∉ l) /\ indexOf name l = -1)
  \/ (exists i : nat, indexOf name l = Z.of_nat i /\ l !! i = Some name
                     /\ forall j : nat, (j < i)%nat -> l !! j <> Some name).
Proof.
  induction l as [|x l IH]; cbn.
  - left. split; [apply not_elem_of_nil|reflexivity].
  - destruct (decide (x = name)) as [->|Hne].
    + right. exists 0%nat. repeat split. intros j Hj. lia.
    + destruct IH as [[Hout ->]|(i & -> & Hi & Hfirst)].
      * left. rewrite bool_decide_eq_true_2 by done. split; [|reflexivity].
        apply not_elem_of_cons. split; [congruence|done].
      * right. exists (S i). rewrite bool_decide_eq_false_2 by lia.
        split; [lia|]. split; [done|].
        intros [|j] Hj; cbn; [congruence|]. apply Hfirst. lia.
Qed.

(** X15: when a session is renamed, the list keeps its length; a session that
    had one clangd has one under its new name; a name that is neither the
    old nor the new one is unaffected; and, the list being free of
    duplicates, the old name no longer has one.  An unknown old name
    changes nothing. *)
Theorem sessionRenamed_granularity (oldName newName : string) m_data :
  let after := sessionRenamed oldName newName m_data in
  (oldName ∈ sessionsWithOneClangd m_data -> granularity newName after = Session)
  /\ (oldName ∉ sessionsWithOneClangd m_data -> after = m_data)
  /\ length (sessionsWithOneClangd after) = length (sessionsWithOneClangd m_data)
  /\ (forall name, name <> oldName -> name <> newName ->
      granularity name after = granularity name m_data)
  /\ (NoDup (sessionsWithOneClangd m_data) -> oldName <> newName ->
      granularity oldName after = Project).
Proof.
  intros after. subst after. unfold sessionRenamed, granularity.
  destruct (indexOf_spec oldName (sessionsWithOneClangd m_data))
    as [[Hout ->]|(i & -> & Hi & Hfirst)].
  - rewrite (bool_decide_eq_true_2 (-1 = -1)) by reflexivity. cbn [negb].
    repeat split; try done. intros _ Hne. by rewrite bool_decide_eq_false_2.
  - rewrite (bool_decide_eq_false_2 (Z.of_nat i = -1)) by lia. cbn [negb].
    rewrite Nat2Z.id. cbn [sessionsWithOneClangd Data_set_sessionsWithOneClangd].
    pose proof (lookup_lt_Some _ _ _ Hi) as Hlt.
    split; [|split; [|split; [|split]]].
    + intros _. rewrite bool_decide_eq_true_2; [reflexivity|].
      by apply list_elem_of_insert.
    + intros Hout. exfalso. by apply Hout, (list_elem_of_lookup_2 _ i).
    + apply length_insert.
    + intros name Hold Hnew.
      assert (Hiff : name ∈ <[i:=newName]> (sessionsWithOneClangd m_data)
                     <-> name ∈ sessionsWithOneClangd m_data).
      { rewrite !list_elem_of_lookup. split; intros [j Hj]; exists j.
        - destruct (decide (i = j)) as [->|Hij].
          + rewrite list_lookup_insert_eq in Hj by done. congruence.
          + by rewrite list_lookup_insert_ne in Hj.
        - destruct (decide (i = j)) as [->|Hij]; [congruence|].
          by rewrite list_lookup_insert_ne. }
      by rewrite (bool_decide_ext _ _ Hiff).
    + intros Hnd Hne. rewrite bool_decide_eq_false_2; [reflexivity|].
      intros [j Hj]%list_elem_of_lookup.
      destruct (decide (i = j)) as [->|Hij].
      * rewrite list_lookup_insert_eq in Hj by done. congruence.
      * rewrite list_lookup_insert_ne in Hj by done.
        apply Hij. by apply (NoDup_lookup (sessionsWithOneClangd m_data) i j oldName).
Qed.

(** X16: when a session is removed, one entry of that name leaves the list;
    other names are unaffected; if the list has no duplicates it has none
    afterwards and the removed name no longer has one clangd.  An unknown
    name changes nothing. *)
Theorem sessionRemoved_granularity name m_data :
  let after := sessionRemoved name m_data in
  (forall other, other <> name -> granularity other after = granularity other m_data)
  /\ (name ∉ sessionsWithOneClangd m_data -> after = m_data)
  /\ (name ∈ sessionsWithOneClangd m_data ->
      S (length (sessionsWithOneClangd after)) = length (sessionsWithOneClangd m_data))
  /\ (NoDup (sessionsWithOneClangd m_data) ->
      NoDup (sessionsWithOneClangd after) /\ granularity name after = Project).
Proof.
  intros after. subst after. unfold sessionRemoved, granularity.
  cbn [sessionsWithOneClangd Data_set_sessionsWithOneClangd].
  split; [|split; [|split]].
  - intros other Hne.
    by rewrite (bool_decide_ext _ _ (elem_of_removeOne_ne name other _ Hne)).
  - intros Hout. rewrite removeOne_absent by done.
    apply Data_set_sessionsWithOneClangd_same.
  - apply removeOne_length.
  - intros Hnd. destruct (removeOne_NoDup name _ Hnd) as [Hnd' Hout].
    split; [done|]. by rewrite bool_decide_eq_false_2.
Qed.

(** *** Reading and writing *)

(** [fromMap] closed over what [toMap] wrote: every member is the one
    written, the path and the id as their texts read back, the custom
    diagnostic configurations as in the receiver. *)
Lemma fromMap_toMap_closed g this data :
  fromMap this (toMap g data)
  = {| executableFilePath :=
         FilePath_fromString
           (if bool_decide (executableFilePath data ≠ fallbackClangdFilePath g)
            then FilePath_toString (executableFilePath data) else "");
       sessionsWithOneClangd := sessionsWithOneClangd data;
       customDiagnosticConfigs := customDiagnosticConfigs this;
       diagnosticConfigId := Id_fromSetting (Id_toSetting (diagnosticConfigId data));
       workerThreadLimit := workerThreadLimit data;
       documentUpdateThreshold := documentUpdateThreshold data;
       sizeThresholdInKb := sizeThresholdInKb data;
       useClangd := useClangd data;
       indexingPriority := indexingPriority data;
       projectIndexPathTemplate := projectIndexPathTemplate data;
       sessionIndexPathTemplate := sessionIndexPathTemplate data;
       headerSourceSwitchMode := headerSourceSwitchMode data;
       completionRankingModel := completionRankingModel data;
       autoIncludeHeaders := autoIncludeHeaders data;
       sizeThresholdEnabled := sizeThresholdEnabled data;
       haveCheckedHardwareReqirements := haveCheckedHardwareReqirements data;
       completionResults := completionResults data |}.
Proof.
  unfold fromMap, value1, value.
  rewrite CppEditorSpec.toMap_useClangd, CppEditorSpec.toMap_clangdPath,
    CppEditorSpec.toMap_clangdIndexing, CppEditorSpec.toMap_clangdIndexingPriority,
    CppEditorSpec.toMap_clangdProjectIndexPath, CppEditorSpec.toMap_clangdSessionIndexPath,
    CppEditorSpec.toMap_clangdHeaderSourceSwitchMode,
    CppEditorSpec.toMap_clangdCompletionRankingModel,
    CppEditorSpec.toMap_clangdHeaderInsertion, CppEditorSpec.toMap_clangdThreadLimit,
    CppEditorSpec.toMap_clangdDocumentThreshold,
    CppEditorSpec.toMap_clangdSizeThresholdEnabled, CppEditorSpec.toMap_clangdSizeThreshold,
    CppEditorSpec.toMap_sessionsWithOneClangd, CppEditorSpec.toMap_diagnosticConfigId,
    CppEditorSpec.toMap_checkedHardware, CppEditorSpec.toMap_completionResults.
  f_equal; cbn.
  - destruct (decide (indexingPriority data = Off)) as [E|E].
    + rewrite bool_decide_eq_false_2 by (intros Hno; by apply Hno). by rewrite E.
    + rewrite bool_decide_eq_true_2 by done. cbn. by destruct (indexingPriority data).
  - by destruct (headerSourceSwitchMode data).
  - by destruct (completionRankingModel data).
Qed.

(** X17: the clangd that is run survives a round trip through the store even
    when the stored path does not: settings whose path is the fallback
    clangd are stored with an empty path, and an empty path means the
    fallback clangd. *)
Theorem clangdFilePath_fromMap_toMap g this data :
  FilePath_fromString (FilePath_toString (executableFilePath data))
  = executableFilePath data ->
  FilePath_isEmpty (FilePath_fromString "") = true ->
  clangdFilePath g (fromMap this (toMap g data)) = clangdFilePath g data.
Proof.
  intros Hrt Hempty. rewrite fromMap_toMap_closed. unfold clangdFilePath. cbn.
  destruct (decide (executableFilePath data = fallbackClangdFilePath g)) as [E|E].
  - rewrite bool_decide_eq_false_2 by (intros Hno; by apply Hno).
    rewrite Hempty. cbn. rewrite E.
    destruct (FilePath_isEmpty (fallbackClangdFilePath g)); reflexivity.
  - rewrite bool_decide_eq_true_2 by done. by rewrite Hrt.
Qed.

(** X18: a store written by [toMap] holds every key [fromMap] reads, so what
    is read from it does not depend on the object it is read into, the
    custom diagnostic configurations apart. *)
Theorem fromMap_toMap_receiver g this this' data :
  fromMap this (toMap g data)
  = Data_set_customDiagnosticConfigs (customDiagnosticConfigs this)
      (fromMap this' (toMap g data)).
Proof. by rewrite !fromMap_toMap_closed. Qed.

(** X19: reading the same store a second time changes nothing. *)
Theorem fromMap_idempotent this map :
  fromMap (fromMap this map) map = fromMap this map.
Proof.
  unfold fromMap, value1, value. cbn. f_equal.
  - f_equal.
    destruct (map !! clangdIndexingPriorityKey) as [v|]; cbn; [reflexivity|].
    destruct (map !! clangdIndexingKey) as [it|]; cbn; [|reflexivity].
    by destruct (toBool it).
  - destruct (map !! clangdHeaderSourceSwitchModeKey); reflexivity.
  - destruct (map !! clangdCompletionRankingModelKey); reflexivity.
Qed.

(** [fromMap] looks at its seventeen keys only. *)
Lemma fromMap_ext this map map' :
  Forall (fun key => map !! key = map' !! key)
    [useClangdKey; clangdPathKey; clangdIndexingKey; clangdIndexingPriorityKey;
     clangdProjectIndexPathKey; clangdSessionIndexPathKey;
     clangdHeaderSourceSwitchModeKey; clangdCompletionRankingModelKey;
     clangdHeaderInsertionKey; clangdThreadLimitKey; clangdDocumentThresholdKey;
     clangdSizeThresholdEnabledKey; clangdSizeThresholdKey; sessionsWithOneClangdKey;
     diagnosticConfigIdKey; checkedHardwareKey; completionResultsKey] ->
  fromMap this map = fromMap this map'.
Proof.
  intros Hkeys. unfold fromMap, value1, value.
  repeat (apply Forall_cons in Hkeys as [-> Hkeys]). reflexivity.
Qed.

(** *** Project settings *)

Section ProjectSettings.
Context {ClangDiagnosticConfig_eq_dec : EqDecision ClangDiagnosticConfig}.

Implicit Types (st : ProjectSettingsState).

Lemma ClangdProjectSettings_eta (this : ClangdProjectSettings) :
  {| m_customSettings := m_customSettings this;
     m_useGlobalSettings := m_useGlobalSettings this;
     m_blockIndexing := m_blockIndexing this |} = this.
Proof. by destruct this. Qed.

Lemma saveSettings_project g st (store : gmap string QVariant) :
  m_project st = Some store ->
  ClangdProjectSettings_saveSettings g st
  = {| this_settings := this_settings st;
       m_project :=
         Some (<[clangdblockIndexingSettingsKey := VBool (m_blockIndexing (this_settings st))]>
                 (<[useGlobalSettingsKey := VBool (m_useGlobalSettings (this_settings st))]>
                    (if negb (m_useGlobalSettings (this_settings st))
                     then toMap g (m_customSettings (this_settings st)) else ∅)));
       instance_data := instance_data st;
       instance_saves := instance_saves st;
       changed_emitted := changed_emitted st |}.
Proof. intros Hp. unfold ClangdProjectSettings_saveSettings. by rewrite Hp. Qed.

Lemma saveSettings_this g st :
  this_settings (ClangdProjectSettings_saveSettings g st) = this_settings st.
Proof. unfold ClangdProjectSettings_saveSettings. by destruct (m_project st). Qed.

Lemma saveSettings_instance_data g st :
  instance_data (ClangdProjectSettings_saveSettings g st) = instance_data st.
Proof. unfold ClangdProjectSettings_saveSettings. by destruct (m_project st). Qed.

Lemma saveSettings_instance_saves g st :
  instance_saves (ClangdProjectSettings_saveSettings g st) = instance_saves st.
Proof. unfold ClangdProjectSettings_saveSettings. by destruct (m_project st). Qed.

Lemma saveSettings_changed g st :
  changed_emitted (ClangdProjectSettings_saveSettings g st) = changed_emitted st.
Proof. unfold ClangdProjectSettings_saveSettings. by destruct (m_project st). Qed.

(** X20: what [saveSettings] hands to the project, [loadSettings] reads back:
    both flags as they were, and the custom settings as [fromMap] reads
    what [toMap] wrote of them.  While the project uses the global
    settings only the two flags are written, and loading leaves the
    object as it was. *)
Theorem loadSettings_saveSettings g st (store : gmap string QVariant) :
  m_project st = Some store ->
  let this := this_settings st in
  let saved := ClangdProjectSettings_saveSettings g st in
  let st' := ClangdProjectSettings_loadSettings saved in
  m_useGlobalSettings (this_settings st') = m_useGlobalSettings this
  /\ m_blockIndexing (this_settings st') = m_blockIndexing this
  /\ m_customSettings (this_settings st')
     = (if m_useGlobalSettings this then m_customSettings this
        else fromMap (m_customSettings this) (toMap g (m_customSettings this)))
  /\ (m_useGlobalSettings this = true ->
      m_project saved
      = Some (<[clangdblockIndexingSettingsKey := VBool (m_blockIndexing this)]>
                (<[useGlobalSettingsKey := VBool true]> ∅))
      /\ this_settings st' = this)
  /\ m_project st' = m_project saved.
Proof.
  intros Hp this saved st'. subst st' saved.
  rewrite (saveSettings_project g st store Hp). fold this.
  unfold ClangdProjectSettings_loadSettings. cbn [m_project this_settings].
  unfold value.
  rewrite lookup_insert_eq, lookup_insert_ne, lookup_insert_eq by discriminate.
  cbn [default from_option id toBool with_settings this_settings m_project
       m_useGlobalSettings m_blockIndexing m_customSettings].
  split; [reflexivity|]. split; [reflexivity|]. split; [|split; [|reflexivity]].
  - destruct (m_useGlobalSettings this); cbn [negb]; [reflexivity|].
    apply fromMap_ext.
    repeat (apply Forall_cons; split;
            [rewrite !lookup_insert_ne by discriminate; reflexivity|]).
    constructor.
  - intros Hg. rewrite Hg. cbn [negb]. split; [reflexivity|].
    rewrite <- Hg. apply ClangdProjectSettings_eta.
Qed.

(** X21: a project that has nothing stored loads as: global settings in use,
    indexing not blocked, custom settings untouched.  An object without a
    project neither loads nor saves anything. *)
Theorem loadSettings_nothing_stored g st :
  (m_project st = Some ∅ ->
   this_settings (ClangdProjectSettings_loadSettings st)
   = {| m_customSettings := m_customSettings (this_settings st);
        m_useGlobalSettings := true;
        m_blockIndexing := false |})
  /\ (m_project st = None ->
      ClangdProjectSettings_loadSettings st = st
      /\ ClangdProjectSettings_saveSettings g st = st).
Proof.
  unfold ClangdProjectSettings_loadSettings, ClangdProjectSettings_saveSettings.
  split; intros ->; [reflexivity|done].
Qed.

(** X22: [blockIndexing] switches the indexing of the project off, stores the
    flag with the project and signals the change once, however often it
    is called; [unblockIndexing] stores the cleared flag, signals nothing
    and gives back the settings the project had before blocking. *)
Theorem blockIndexing_unblockIndexing g st :
  let st1 := blockIndexing g st in
  let st2 := unblockIndexing g st1 in
  indexingPriority (settings (instance_data st1) (this_settings st1)) = Off
  /\ blockIndexing g st1 = st1
  /\ changed_emitted st1
     = (if m_blockIndexing (this_settings st) then changed_emitted st
        else S (changed_emitted st))
  /\ changed_emitted st2 = changed_emitted st1
  /\ m_blockIndexing (this_settings st2) = false
  /\ (m_blockIndexing (this_settings st) = false ->
      this_settings st2 = this_settings st
      /\ settings (instance_data st2) (this_settings st2)
         = settings (instance_data st) (this_settings st)
      /\ forall store : gmap string QVariant,
           m_project st = Some store ->
           (exists store1, m_project st1 = Some store1
                           /\ store1 !! clangdblockIndexingSettingsKey = Some (VBool true))
           /\ (exists store2, m_project st2 = Some store2
                              /\ store2 !! clangdblockIndexingSettingsKey
                                 = Some (VBool false))).
Proof.
  intros st1 st2.
  assert (Hst1 : this_settings st1
                 = {| m_customSettings := m_customSettings (this_settings st);
                      m_useGlobalSettings := m_useGlobalSettings (this_settings st);
                      m_blockIndexing := true |}
                 /\ instance_data st1 = instance_data st
                 /\ changed_emitted st1
                    = (if m_blockIndexing (this_settings st) then changed_emitted st
                       else S (changed_emitted st))).
  { unfold st1, blockIndexing. destruct (m_blockIndexing (this_settings st)) eqn:Hb.
    - split; [|done]. rewrite <- Hb. symmetry. apply ClangdProjectSettings_eta.
    - cbn [emit_changed this_settings instance_data changed_emitted].
      by rewrite saveSettings_this, saveSettings_instance_data, saveSettings_changed. }
  destruct Hst1 as (Hthis1 & Hdata1 & Hchanged1).
  assert (Hblocked1 : m_blockIndexing (this_settings st1) = true) by (by rewrite Hthis1).
  assert (Hst2 : st2 = ClangdProjectSettings_saveSettings g
                         (with_settings
                            {| m_customSettings := m_customSettings (this_settings st1);
                               m_useGlobalSettings := m_useGlobalSettings (this_settings st1);
                               m_blockIndexing := false |} st1)).
  { unfold st2, unblockIndexing. by rewrite Hblocked1. }
  split; [unfold settings; by rewrite Hblocked1|].
  split; [unfold blockIndexing; by rewrite Hblocked1|].
  split; [exact Hchanged1|].
  split; [rewrite Hst2; by rewrite saveSettings_changed|].
  split; [rewrite Hst2; by rewrite saveSettings_this|].
  intros Hb.
  assert (Hthis2 : this_settings st2 = this_settings st).
  { rewrite Hst2, saveSettings_this. cbn [with_settings this_settings].
    rewrite Hthis1. cbn [m_customSettings m_useGlobalSettings].
    rewrite <- Hb. apply ClangdProjectSettings_eta. }
  split; [exact Hthis2|]. split.
  - rewrite Hthis2. f_equal. rewrite Hst2, saveSettings_instance_data. exact Hdata1.
  - intros store Hp.
    assert (Hp1 : exists store1, m_project st1 = Some store1
                                 /\ store1 !! clangdblockIndexingSettingsKey
                                    = Some (VBool true)).
    { unfold st1, blockIndexing. rewrite Hb.
      rewrite (saveSettings_project g _ store) by done.
      cbn [emit_changed m_project with_settings this_settings m_blockIndexing].
      eexists. split; [reflexivity|]. apply lookup_insert_eq. }
    split; [exact Hp1|]. destruct Hp1 as (store1 & Hp1 & _).
    rewrite Hst2. rewrite (saveSettings_project g _ store1) by done.
    cbn [m_project with_settings this_settings m_blockIndexing].
    eexists. split; [reflexivity|]. apply lookup_insert_eq.
Qed.

(** X23: after [setSettings(data)] the global instance has the custom
    diagnostic configurations of [data], saving itself only if they are
    new to it, and the change is signalled once; a project that uses its
    own settings and does not block indexing then gets [data] back from
    [settings()], with the sessions of the global instance. *)
Theorem setSettings_settings g data st :
  let st' := setSettings g data st in
  m_customSettings (this_settings st') = data
  /\ customDiagnosticConfigs (instance_data st') = customDiagnosticConfigs data
  /\ sessionsWithOneClangd (instance_data st') = sessionsWithOneClangd (instance_data st)
  /\ changed_emitted st' = S (changed_emitted st)
  /\ instance_saves st'
     = (if bool_decide (customDiagnosticConfigs (instance_data st)
                        = customDiagnosticConfigs data)
        then instance_saves st else S (instance_saves st))
  /\ (m_useGlobalSettings (this_settings st) = false ->
      m_blockIndexing (this_settings st) = false ->
      settings (instance_data st') (this_settings st')
      = Data_set_sessionsWithOneClangd (sessionsWithOneClangd (instance_data st)) data).
Proof.
  intros st'. subst st'. unfold setSettings, setCustomDiagnosticConfigs.
  destruct (m_project st) as [store|] eqn:Hp.
  - rewrite (saveSettings_project g _ store) by done. cbn.
    case_bool_decide as Hc; cbn.
    + repeat split; try done. intros Hg Hb. unfold settings. cbn. rewrite Hg, Hb. cbn.
      rewrite Hc. by destruct data.
    + repeat split. intros Hg Hb. unfold settings. cbn. rewrite Hg, Hb. cbn.
      by destruct data.
  - unfold ClangdProjectSettings_saveSettings. cbn. rewrite Hp. cbn.
    case_bool_decide as Hc; cbn.
    + repeat split; try done. intros Hg Hb. unfold settings. cbn. rewrite Hg, Hb. cbn.
      rewrite Hc. by destruct data.
    + repeat split. intros Hg Hb. unfold settings. cbn. rewrite Hg, Hb. cbn.
      by destruct data.
Qed.

(** X24: with the global settings switched on, [settings()] is the data of
    the global instance (indexing off if the project blocks it); the
    custom settings stay in the object, so switching back gives them
    again; each switch signals a change. *)
Theorem setUseGlobalSettings_settings g st :
  let on := setUseGlobalSettings g true st in
  let off := setUseGlobalSettings g false on in
  settings (instance_data on) (this_settings on)
  = (if m_blockIndexing (this_settings st)
     then Data_set_indexingPriority Off (instance_data st) else instance_data st)
  /\ m_customSettings (this_settings off) = m_customSettings (this_settings st)
  /\ changed_emitted off = S (S (changed_emitted st))
  /\ (m_useGlobalSettings (this_settings st) = false ->
      this_settings off = this_settings st
      /\ settings (instance_data off) (this_settings off)
         = settings (instance_data st) (this_settings st)).
Proof.
  intros on off. subst off on. unfold setUseGlobalSettings.
  cbn [emit_changed this_settings instance_data changed_emitted].
  repeat (rewrite ?saveSettings_this, ?saveSettings_instance_data, ?saveSettings_changed;
          cbn [with_settings emit_changed this_settings instance_data changed_emitted
               m_customSettings m_useGlobalSettings m_blockIndexing]).
  split; [reflexivity|]. split; [reflexivity|]. split; [reflexivity|].
  intros Hg.
  assert (Hthis : {| m_customSettings := m_customSettings (this_settings st);
                     m_useGlobalSettings := false;
                     m_blockIndexing := m_blockIndexing (this_settings st) |}
                  = this_settings st)
    by (rewrite <- Hg; apply ClangdProjectSettings_eta).
  split; [exact Hthis|]. by rewrite Hthis.
Qed.

End ProjectSettings.

(** *** The clang headers *)

Section Headers.
Context {V : Versions (H := H)}.

Lemma getClangHeadersPathFromClang_exists (clangdFilePath : FilePath) :
  getClangHeadersPathFromClang clangdFilePath = FilePath_null
  \/ FilePath_exists (getClangHeadersPathFromClang clangdFilePath) = true.
Proof.
  unfold getClangHeadersPathFromClang.
  repeat match goal with
         | |- context [if negb ?b then _ else _] => destruct b eqn:?; cbn [negb]
         | |- context [if ?a || negb ?b then _ else _] =>
             destruct a eqn:?, b eqn:?; cbn [negb orb]
         end; auto.
Qed.

(** X25: [getClangHeadersPath] returns the empty path or a path that
    exists.  What clang itself reports is preferred; failing that, and
    the version of clangd being known, it is the first that exists of
    lib/clang/MAJOR/include, lib/clang/VERSION/include,
    lib64/clang/MAJOR/include and lib64/clang/VERSION/include under the
    parent of clangd's directory, and the empty path if none of the four
    exists or the version is unknown. *)
Theorem getClangHeadersPath_exists (clangdFilePath : FilePath) :
  let fromClang := getClangHeadersPathFromClang clangdFilePath in
  let version := clangdVersion clangdFilePath in
  let includeDir := fun libDir versionString : string =>
    pathAppended
      (pathAppended
         (pathAppended
            (pathAppended (parentDir (absolutePath clangdFilePath)) libDir) "clang")
         versionString)
      "include" in
  let major := QString_number (majorVersion version) in
  let full := QVersionNumber_toString version in
  (getClangHeadersPath clangdFilePath = FilePath_null
   \/ FilePath_exists (getClangHeadersPath clangdFilePath) = true)
  /\ (FilePath_isEmpty fromClang = false -> getClangHeadersPath clangdFilePath = fromClang)
  /\ (FilePath_isEmpty fromClang = true -> QVersionNumber_isNull version = true ->
      getClangHeadersPath clangdFilePath = FilePath_null)
  /\ (FilePath_isEmpty fromClang = true -> QVersionNumber_isNull version = false ->
      getClangHeadersPath clangdFilePath
      = if FilePath_exists (includeDir "lib" major) then includeDir "lib" major
        else if FilePath_exists (includeDir "lib" full) then includeDir "lib" full
        else if FilePath_exists (includeDir "lib64" major) then includeDir "lib64" major
        else if FilePath_exists (includeDir "lib64" full) then includeDir "lib64" full
        else FilePath_null).
Proof.
  intros fromClang version includeDir major full.
  unfold getClangHeadersPath. fold fromClang version.
  split; [|split; [|split]].
  - destruct (FilePath_isEmpty fromClang); cbn [negb].
    + destruct (QVersionNumber_isNull version); cbn [negb]; [by left|].
      destruct (List.find FilePath_exists (includePaths clangdFilePath version))
        as [includePath|] eqn:Hfind; [|by left].
      right. by apply find_some in Hfind as [_ Hex].
    + apply getClangHeadersPathFromClang_exists.
  - by intros ->.
  - by intros -> ->.
  - intros -> ->. cbn [negb]. unfold includePaths.
    cbn [flat_map List.map app List.find]. fold version. fold major full.
    fold (includeDir "lib" major) (includeDir "lib" full)
         (includeDir "lib64" major) (includeDir "lib64" full).
    destruct (FilePath_exists (includeDir "lib" major)); [reflexivity|].
    destruct (FilePath_exists (includeDir "lib" full)); [reflexivity|].
    destruct (FilePath_exists (includeDir "lib64" major)); [reflexivity|].
    destruct (FilePath_exists (includeDir "lib64" full)); reflexivity.
Qed.

End Headers.

End Settings.

(** *** On the example host *)

Lemma clangdFilePath_fromMap_toMap_witness :
  executableFilePath
    (fromMap (H := Demo.settingsHost) Demo.systemClangd
             (toMap (H := Demo.settingsHost) ("" : string) Demo.systemClangd))
  = ("" : string)
  /\ clangdFilePath (H := Demo.settingsHost) ("" : string)
       (fromMap (H := Demo.settingsHost) Demo.systemClangd
                (toMap (H := Demo.settingsHost) ("" : string) Demo.systemClangd))
     = ("/usr/bin/clangd" : string).
Proof.
  split; [vm_compute; reflexivity|].
  etransitivity.
  - apply (clangdFilePath_fromMap_toMap (H := Demo.settingsHost) ("" : string)
             Demo.systemClangd Demo.systemClangd); reflexivity.
  - vm_compute. reflexivity.
Defined.

Lemma loadSettings_saveSettings_witness :
  m_project Demo.projectState = Some ∅
  /\ m_useGlobalSettings
       (this_settings
          (ClangdProjectSettings_loadSettings (H := Demo.settingsHost)
             (ClangdProjectSettings_saveSettings (H := Demo.settingsHost) ("" : string)
                Demo.projectState)))
     = false.
Proof.
  split; [reflexivity|].
  destruct (loadSettings_saveSettings (H := Demo.settingsHost) ("" : string)
              Demo.projectState ∅ eq_refl) as (Hglobal & _).
  exact Hglobal.
Defined.

Lemma sessionRenamed_granularity_witness :
  ("default" : string) ∈ sessionsWithOneClangd Demo.systemClangd
  /\ granularity (H := Demo.settingsHost) "work"
       (sessionRenamed (H := Demo.settingsHost) "default" "work" Demo.systemClangd)
     = Session.
Proof.
  assert (Hin : ("default" : string) ∈ sessionsWithOneClangd Demo.systemClangd)
    by apply list_elem_of_here.
  split; [exact Hin|].
  exact (proj1 (sessionRenamed_granularity (H := Demo.settingsHost) "default" "work"
                  Demo.systemClangd) Hin).
Defined.

Lemma sessionRemoved_granularity_witness :
  NoDup (sessionsWithOneClangd Demo.systemClangd)
  /\ granularity (H := Demo.settingsHost) "default"
       (sessionRemoved (H := Demo.settingsHost) "default" Demo.systemClangd)
     = Project.
Proof.
  assert (Hnd : NoDup (sessionsWithOneClangd Demo.systemClangd)).
  { apply NoDup_cons. split; [apply not_elem_of_nil|apply NoDup_nil; exact I]. }
  split; [exact Hnd|].
  destruct (sessionRemoved_granularity (H := Demo.settingsHost) "default"
              Demo.systemClangd) as (_ & _ & _ & Hgone).
  exact (proj2 (Hgone Hnd)).
Defined.

Lemma blockIndexing_unblockIndexing_witness :
  m_blockIndexing (this_settings Demo.projectState) = false
  /\ this_settings
       (unblockIndexing (H := Demo.settingsHost) ("" : string)
          (blockIndexing (H := Demo.settingsHost) ("" : string) Demo.projectState))
     = this_settings Demo.projectState.
Proof.
  split; [reflexivity|].
  destruct (blockIndexing_unblockIndexing (H := Demo.settingsHost) ("" : string)
              Demo.projectState) as (_ & _ & _ & _ & _ & Hback).
  exact (proj1 (Hback eq_refl)).
Defined.

Lemma setSettings_settings_witness :
  m_useGlobalSettings (this_settings Demo.projectState) = false
  /\ settings (H := Demo.settingsHost)
       (instance_data
          (setSettings (H := Demo.settingsHost)
             (ClangDiagnosticConfig_eq_dec := String.eq_dec) ("" : string)
             Demo.systemClangd Demo.projectState))
       (this_settings
          (setSettings (H := Demo.settingsHost)
             (ClangDiagnosticConfig_eq_dec := String.eq_dec) ("" : string)
             Demo.systemClangd Demo.projectState))
     = Demo.systemClangd.
Proof.
  split; [reflexivity|].
  destruct (setSettings_settings (H := Demo.settingsHost)
              (ClangDiagnosticConfig_eq_dec := String.eq_dec) ("" : string)
              Demo.systemClangd Demo.projectState) as (_ & _ & _ & _ & _ & Hback).
  etransitivity; [apply Hback; reflexivity|]. reflexivity.
Defined.

(** The clangd under /opt/llvm has no clang beside it; its headers are
    found in the third of the four directories, although the fourth
    exists as well. *)
Lemma getClangHeadersPath_exists_witness :
  FilePath_isEmpty (Host := Demo.settingsHost)
    (getClangHeadersPathFromClang (H := Demo.settingsHost) ("/opt/llvm/bin/clangd" : string))
  = true
  /\ FilePath_exists (Host := Demo.settingsHost)
       ("/opt/llvm/lib64/clang/17.0.6/include" : string) = true
  /\ getClangHeadersPath (H := Demo.settingsHost) (V := Demo.settingsVersions)
       ("/opt/llvm/bin/clangd" : string)
     = ("/opt/llvm/lib64/clang/17/include" : string)
  /\ getClangHeadersPath (H := Demo.settingsHost) (V := Demo.settingsVersions)
       ("/usr/bin/clangd" : string)
     = ("/usr/lib/clang/17/include" : string).
Proof.
  split; [vm_compute; reflexivity|]. split; [vm_compute; reflexivity|].
  destruct (getClangHeadersPath_exists (H := Demo.settingsHost) (V := Demo.settingsVersions)
              ("/opt/llvm/bin/clangd" : string)) as (_ & _ & _ & Hsearch).
  destruct (getClangHeadersPath_exists (H := Demo.settingsHost) (V := Demo.settingsVersions)
              ("/usr/bin/clangd" : string)) as (_ & Hclang & _).
  split.
  - etransitivity; [apply Hsearch; vm_compute; reflexivity|]. vm_compute. reflexivity.
  - etransitivity; [apply Hclang; vm_compute; reflexivity|]. vm_compute. reflexivity.
Defined.

Lemma setUseGlobalSettings_settings_witness :
  m_useGlobalSettings (this_settings Demo.projectState) = false
  /\ settings (H := Demo.settingsHost)
       (instance_data (setUseGlobalSettings (H := Demo.settingsHost) ("" : string) true
                         Demo.projectState))
       (this_settings (setUseGlobalSettings (H := Demo.settingsHost) ("" : string) true
                         Demo.projectState))
     = Demo.systemClangd
  /\ this_settings
       (setUseGlobalSettings (H := Demo.settingsHost) ("" : string) false
          (setUseGlobalSettings (H := Demo.settingsHost) ("" : string) true
             Demo.projectState))
     = this_settings Demo.projectState.
Proof.
  split; [reflexivity|].
  destruct (setUseGlobalSettings_settings (H := Demo.settingsHost) ("" : string)
              Demo.projectState) as (Hon & _ & _ & Hback).
  split; [exact Hon|exact (proj1 (Hback eq_refl))].
Defined.

Lemma loadSettings_nothing_stored_witness :
  m_project Demo.projectState = Some ∅
  /\ m_useGlobalSettings
       (this_settings (ClangdProjectSettings_loadSettings (H := Demo.settingsHost)
                         Demo.projectState))
     = true.
Proof.
  split; [reflexivity|].
  destruct (loadSettings_nothing_stored (H := Demo.settingsHost) ("" : string)
              Demo.projectState) as [Hfresh _].
  rewrite (Hfresh eq_refl). reflexivity.
Defined.

End CppEditorMore.
